(** * Interactive cell and native editor views

    A shallow embedding of the two React components of
    [datascience-ui/history-react/interactiveCell.tsx]:

    - [InteractiveCell], one notebook cell with its key handling, toolbar
      and update check;
    - [NativeEditor], the notebook surface with its window-level shortcut,
      its cell selection protocol and its scroll-driven visibility scan.

    Handlers are functions from the component's fields (and the part of the
    DOM they read) to the new fields and the list of calls they make on
    their collaborators (the key event, the editor, the redux action
    creators, the state controller, [setState], [setTimeout]), in program
    order. *)

From Stdlib Require Import ZArith Lia String Ascii List.
From stdpp Require Import base tactics option list strings gmap.

Local Open Scope string_scope.
Local Open Scope Z_scope.

(** ** Values shared by both components *)

(** [Identifiers] of [client/datascience/constants]: the file only names
    the two sentinels, so they are a parameter of the development. *)
Class Identifiers := {
  EditCellId : string;
  EmptyFileName : string
}.

(** A JavaScript string is a sequence of UTF-16 code units.  The code only
    compares whole strings, tests them for emptiness, and looks for the
    line feed U+000A from the end, so units are modelled by [ascii]. *)
Module Js.

Definition LF : ascii := "010"%char.

(** ["\n"] *)
Definition nl : string := String LF EmptyString.

(** [s.length] *)
Definition length (s : string) : Z := Z.of_nat (String.length s).

(** [s[i]]: [undefined] (here [None]) out of range. *)
Definition charAt (s : string) (i : Z) : option ascii :=
    if i <? 0 then None else list_ascii_of_string s !! Z.to_nat i.

(** [s.slice(0, n)] for an integer [n >= 0] (a negative [n] counts from
      the end in JavaScript; no caller here passes one). *)
Definition slice0 (s : string) (n : Z) : string :=
    string_of_list_ascii (take (Z.to_nat n) (list_ascii_of_string s)).

(** A string is truthy when it is not empty. *)
Definition truthy (s : string) : bool :=
    match s with EmptyString => false | String _ _ => true end.

(** [a[i]] on an array. *)
Definition index {A} (a : list A) (i : Z) : option A :=
    if i <? 0 then None else a !! Z.to_nat i.

(** [x || y] where [x] is an object or [undefined]. *)
Definition orElse {A} (x y : option A) : option A :=
    match x with Some v => Some v | None => y end.

End Js.

(** [CellState] of [client/datascience/types]. *)
Inductive CellState := editing | init | executing | finished | error.

(** [CursorPos] of [interactive-common/mainState]. *)
Inductive CursorPos := Top | Bottom | Current.

(** The part of a notebook cell's [data] that the views read. *)
Module CellData.
Record t := mk {
    cell_type : string;
    messages : list string;
    execution_count : option Z;
    outputs : option (list string)
  }.
End CellData.

(** [ICell]. *)
Module ICell.
Record t := mk {
    id : string;
    file : option string;
    state : CellState;
    data : CellData.t
  }.
End ICell.

(** [ICellViewModel], with the fields the two components read. *)
Module ICellViewModel.
Record t := mk {
    cell : ICell.t;
    selected : bool;
    focused : bool;
    editable : bool;
    directInput : bool;
    inputBlockShow : bool;
    inputBlockOpen : bool;
    inputBlockCollapseNeeded : bool;
    showLineNumbers : bool;
    hideOutput : bool;
    useQuickEdit : bool
  }.

(** [{...cellVM, useQuickEdit: v}] *)
Definition with_useQuickEdit (cellVM : t) (v : bool) : t :=
    {| cell := cell cellVM;
       selected := selected cellVM;
       focused := focused cellVM;
       editable := editable cellVM;
       directInput := directInput cellVM;
       inputBlockShow := inputBlockShow cellVM;
       inputBlockOpen := inputBlockOpen cellVM;
       inputBlockCollapseNeeded := inputBlockCollapseNeeded cellVM;
       showLineNumbers := showLineNumbers cellVM;
       hideOutput := hideOutput cellVM;
       useQuickEdit := v |}.
End ICellViewModel.

#[global] Instance CellState_eq_dec : EqDecision CellState.
Proof. solve_decision. Defined.
#[global] Instance CursorPos_eq_dec : EqDecision CursorPos.
Proof. solve_decision. Defined.
#[global] Instance CellData_eq_dec : EqDecision CellData.t.
Proof. solve_decision. Defined.
#[global] Instance ICell_eq_dec : EqDecision ICell.t.
Proof. solve_decision. Defined.
#[global] Instance ICellViewModel_eq_dec : EqDecision ICellViewModel.t.
Proof. solve_decision. Defined.

Module InputHistory.
(** Modelled from the spec: the [InputHistory] class of
      [interactive-common/inputHistory] is not part of this file, which
      only constructs it and calls [add].  The spec describes it as an
      ordered sequence of previously submitted input strings; each entry
      is kept with the tag it was added with.  Its recall cursor is not
      touched by the cell and is left out. *)
Record t := mk { entries : list (string * bool) }.

(** [new InputHistory()] *)
Definition new : t := {| entries := [] |}.

(** [history.add(code, typed)] *)
Definition add (code : string) (typed : bool) (h : t) : t :=
    {| entries := entries h ++ [(code, typed)] |}.
End InputHistory.


(** ** The cell view: [InteractiveCell] *)
Module InteractiveCell.

(** [IFont] *)
Record IFont := mkFont { size : Z; family : string }.

(** The settings the cell reads from [IDataScienceExtraSettings]. *)
Record IDataScienceExtraSettings := mkSettings {
  showCellInputCode : bool;
  themeMatplotlibPlots : bool;
  enableGather : bool
}.

(** [IInteractiveCellBaseProps].  [editorOptions] is handed to the inner
    editor untouched and is left out; the action creators the props also
    carry are the constructors of [Action] below. *)
Record IInteractiveCellBaseProps := mkProps {
  role : option string;
  cellVM : ICellViewModel.t;
  baseTheme : string;
  codeTheme : string;
  testMode : option bool;
  autoFocus : bool;
  maxTextSize : option Z;
  showWatermark : bool;
  monacoTheme : option string;
  editExecutionCount : option string;
  editorMeasureClassName : option string;
  font : IFont;
  settings : IDataScienceExtraSettings
}.

(** What the inner editor reports with a key event ([e.editorInfo]). *)
Record IEditorInfo := mkEditorInfo {
  contents : string;
  isDirty : bool;
  isSuggesting : bool
}.

(** [IKeyboardEvent] of [react-common/event]. *)
Record IKeyboardEvent := mkKeyboardEvent {
  code : string;
  shiftKey : bool;
  ctrlKey : bool;
  metaKey : bool;
  altKey : bool;
  editorInfo : option IEditorInfo
}.

(** The action creators of [./redux/actions] the cell dispatches. *)
Inductive Action :=
| toggleInputBlock (cellId : string)
| gotoCell (cellId : string)
| deleteCell (cellId : string)
| copyCellCode (cellId : string)
| gatherCell (cellId : string)
| clickCell (cellId : string)
| doubleClickCell (cellId : string)
| editCell (cellId : string) (changes : list string)
| submitInput (code : string) (cellId : string).

(** Calls a handler makes on its collaborators. *)
Inductive Call :=
| StopPropagation                 (* e.stopPropagation() *)
| PreventDefault                  (* e.preventDefault() *)
| EditorClear                     (* e.editorInfo.clear() *)
| Dispatch (a : Action)           (* this.props.<action>(...) *)
| ElementFocus (node : nat)       (* <element>.focus() *)
| CodeGiveFocus (pos : CursorPos) (* this.codeRef.current.giveFocus(pos) *)
| NewInputHistory                 (* new InputHistory() *)
| Render.                         (* the body of render() runs *)

#[global] Instance IFont_eq_dec : EqDecision IFont.
Proof. solve_decision. Defined.
#[global] Instance IDataScienceExtraSettings_eq_dec : EqDecision IDataScienceExtraSettings.
Proof. solve_decision. Defined.
#[global] Instance IInteractiveCellBaseProps_eq_dec : EqDecision IInteractiveCellBaseProps.
Proof. solve_decision. Defined.

(** *** The DOM as the escape handler reads it *)

Inductive Tag :=
| input | button | select | textarea
| a (href : option string)
| otherTag (name : string).

(** An element: [node] is its identity as an object. *)
Record HTMLElement := mkElement { node : nat; tag : Tag; tabIndex : Z }.

(** [elements] lists the document's elements in document order. *)
Record Document := mkDocument {
  elements : list HTMLElement;
  activeElement : option HTMLElement
}.

(** Whether an element matches ['input, button, select, textarea, a[href]']. *)
Definition matchesFocusable (el : HTMLElement) : bool :=
  match tag el with
  | input | button | select | textarea => true
  | a (Some _) => true
  | a None => false
  | otherTag _ => false
  end.

(** [document.querySelectorAll('input, button, select, textarea, a[href]')]:
    the matching elements, in document order. *)
Definition querySelectorAll (doc : Document) : list HTMLElement :=
  List.filter matchesFocusable (elements doc).

(** [array.indexOf(element)] from position [i]: strict equality of objects
    is equality of identity; [-1] when absent. *)
Fixpoint indexOfFrom (l : list HTMLElement) (element : HTMLElement) (i : Z) : Z :=
  match l with
  | [] => -1
  | x :: l' => if Nat.eqb (node x) (node element) then i
               else indexOfFrom l' element (i + 1)
  end.

Definition indexOf (l : list HTMLElement) (element : HTMLElement) : Z :=
  indexOfFrom l element 0.

(** [findTabStop(direction, element)].  The two guards test an element and
    a node list, which are objects and so always truthy. *)
Definition findTabStop (doc : Document) (direction : Z) (element : HTMLElement)
  : option HTMLElement :=
  let allFocusable := querySelectorAll doc in
  let tabable := List.filter (fun i => tabIndex i >=? 0) allFocusable in
  let self := indexOf tabable element in
  if direction >=? 0
  then Js.orElse (Js.index tabable (self + 1)) (Js.index tabable 0)
  else Js.orElse (Js.index tabable (self - 1)) (Js.index tabable 0).

(** *** What [render] produces *)

(** The images of the toolbar buttons ([ImageName]). *)
Inductive ImageName := GatherCode | GoToSourceCode | Copy | Cancel.

#[global] Instance ImageName_eq_dec : EqDecision ImageName.
Proof. solve_decision. Defined.

(** An [ImageButton] element: its image, what a click dispatches, and its
    [hidden] prop ([false] when the prop is not given). *)
Record ImageButton := mkButton {
  image : ImageName;
  onClick : Action;
  hidden : bool
}.

(** The text of the execution count badge: a number's [toString()] or a
    string taken as it is. *)
Inductive CountText := CountOf (n : Z) | CountLiteral (s : string).

(** The [controls-div]: the [ExecutionCount] props, the [CollapseButton]
    props and the toolbar ([None] for [null]). *)
Record Controls := mkControls {
  isBusy : bool;
  count : CountText;
  countVisible : bool;
  collapseVisible : bool;
  collapseOpen : bool;
  toolbar : option (list ImageButton)
}.

(** The props of the inner [CellInput] that depend on the cell. *)
Record CellInputProps := mkCellInput {
  history : option InputHistory.t;
  inputAutoFocus : bool;
  inputTestMode : bool;
  inputShowLineNumbers : bool
}.

(** The wrapper [div] of a rendered cell. *)
Record CellLayout := mkLayout {
  wrapperClass : string;
  outerClass : string;
  controls : Controls;
  cellInput : option CellInputProps;
  outputThemeMatplotlibPlots : bool
}.

(** The element [render] returns. *)
Inductive View :=
| InformationMessages (messages : list string)
| NormalCell (layout : option CellLayout).

(** *** The component *)

(** An instance: its current props, the [inputHistory] field, and whether
    React has attached the wrapper ([wrapperRef.current], by node) and the
    inner editor ([codeRef.current]). *)
Record t := mkCell {
  props : IInteractiveCellBaseProps;
  inputHistory : option InputHistory.t;
  wrapperRef : option nat;
  codeRef : bool
}.

Definition with_props (this : t) (p : IInteractiveCellBaseProps) : t :=
  {| props := p; inputHistory := inputHistory this;
     wrapperRef := wrapperRef this; codeRef := codeRef this |}.

Definition with_inputHistory (this : t) (h : option InputHistory.t) : t :=
  {| props := props this; inputHistory := h;
     wrapperRef := wrapperRef this; codeRef := codeRef this |}.

(** [getCell()] *)
Definition getCell (this : t) : ICell.t := ICellViewModel.cell (cellVM (props this)).

(** [isCodeCell()] *)
Definition isCodeCell (this : t) : bool :=
  String.eqb (CellData.cell_type (ICell.data (getCell this))) "code".

(** The trailing-newline loop of [editCellSubmit]:
    [while (endPos >= 0 && contents[endPos] === '\n') endPos -= 1],
    with one unit of [fuel] per iteration. *)
Fixpoint trimLoop (fuel : nat) (contents : string) (endPos : Z) : Z :=
  match fuel with
  | O => endPos
  | S fuel' =>
      if (endPos >=? 0) && bool_decide (Js.charAt contents endPos = Some Js.LF)
      then trimLoop fuel' contents (endPos - 1)
      else endPos
  end.

(** [contents] without the line feeds at its end: the loop starts at the
    last position and can run at most once per character. *)
Definition trimTrailingNewlines (contents : string) : string :=
  let endPos := trimLoop (String.length contents) contents (Js.length contents - 1) in
  Js.slice0 contents (endPos + 1).

Section Handlers.
Context `{Identifiers}.

(** [constructor(prop)]: refs start detached. *)
Definition constructor (prop : IInteractiveCellBaseProps) : t * list Call :=
  if String.eqb (ICell.id (ICellViewModel.cell (cellVM prop))) EditCellId
  then ({| props := prop; inputHistory := Some InputHistory.new;
           wrapperRef := None; codeRef := false |}, [NewInputHistory])
  else ({| props := prop; inputHistory := None;
           wrapperRef := None; codeRef := false |}, []).

(** [editCellSubmit(e)] *)
Definition editCellSubmit (this : t) (e : IKeyboardEvent) : t * list Call :=
  match editorInfo e with
  | Some info =>
      if Js.truthy (contents info) then
        let content := trimTrailingNewlines (contents info) in
        let this' :=
          match inputHistory this with
          | Some h => with_inputHistory this (Some (InputHistory.add content (isDirty info) h))
          | None => this
          end in
        (this', [StopPropagation; PreventDefault; EditorClear;
                 Dispatch (submitInput content (ICell.id (getCell this)))])
      else (this, [])
  | None => (this, [])
  end.

(** [editCellEscape(e)] *)
Definition editCellEscape (this : t) (doc : Document) (e : IKeyboardEvent) : t * list Call :=
  match activeElement doc, editorInfo e with
  | Some focusedElement, Some info =>
      if negb (isSuggesting info) then
        match findTabStop doc 1 focusedElement with
        | Some nextTabStop => (this, [ElementFocus (node nextTabStop)])
        | None => (this, [])
        end
      else (this, [])
  | _, _ => (this, [])
  end.

(** [onEditCellKeyDown(_cellId, e)] *)
Definition onEditCellKeyDown (this : t) (doc : Document) (_cellId : string)
  (e : IKeyboardEvent) : t * list Call :=
  if String.eqb (code e) "Escape" then editCellEscape this doc e
  else if String.eqb (code e) "Enter" && shiftKey e then editCellSubmit this e
  else (this, []).

(** [onKeyDown(event)] on the cell's wrapper: the event it forwards is
    built without [editorInfo]. *)
Definition onKeyDown (this : t) (doc : Document) (event : IKeyboardEvent) : t * list Call :=
  if String.eqb (ICell.id (getCell this)) EditCellId then
    let e := {| code := code event; shiftKey := shiftKey event;
                ctrlKey := ctrlKey event; metaKey := metaKey event;
                altKey := altKey event; editorInfo := None |} in
    onEditCellKeyDown this doc EditCellId e
  else (this, []).

(** [giveFocus(giveCodeFocus)] *)
Definition giveFocus (this : t) (giveCodeFocus : bool) : list Call :=
  match wrapperRef this with Some n => [ElementFocus n] | None => [] end
  ++ (if giveCodeFocus && isCodeCell this && codeRef this
      then [CodeGiveFocus Current] else []).

(** [componentDidUpdate(prevProps)] *)
Definition componentDidUpdate (this : t) (prevProps : IInteractiveCellBaseProps) : list Call :=
  if ICellViewModel.selected (cellVM (props this))
     && negb (ICellViewModel.selected (cellVM prevProps))
  then giveFocus this (ICellViewModel.focused (cellVM (props this)))
  else [].

(** [onMouseClick], [onMouseDoubleClick], [toggleInputBlock],
    [onCodeChange]: the connected component always has its action
    creators. *)
Definition onMouseClick (this : t) : list Call :=
  [StopPropagation; Dispatch (clickCell (ICell.id (getCell this)))].

Definition onMouseDoubleClick (this : t) : list Call :=
  [StopPropagation; Dispatch (doubleClickCell (ICell.id (getCell this)))].

Definition toggleInputBlockClick (this : t) : list Call :=
  [Dispatch (toggleInputBlock (ICell.id (getCell this)))].

Definition onCodeChange (changes : list string) (cellId : string) : list Call :=
  [Dispatch (editCell cellId changes)].

(** [renderNormalToolbar()] *)
Definition renderNormalToolbar (this : t) : list ImageButton :=
  let cell := getCell this in
  let cellId := ICell.id cell in
  let hasNoSource :=
    match ICell.file cell with
    | None => true
    | Some file => negb (Js.truthy file) || String.eqb file EmptyFileName
    end in
  [ {| image := GatherCode; onClick := gatherCell cellId;
       hidden := negb (enableGather (settings (props this))) |};
    {| image := GoToSourceCode; onClick := gotoCell cellId; hidden := hasNoSource |};
    {| image := Copy; onClick := copyCellCode cellId; hidden := negb hasNoSource |};
    {| image := Cancel; onClick := deleteCell cellId; hidden := false |} ].

(** [renderControls()] *)
Definition renderControls (this : t) : Controls :=
  let vm := cellVM (props this) in
  let cell := ICellViewModel.cell vm in
  let busy :=
    bool_decide (ICell.state cell = init) || bool_decide (ICell.state cell = executing) in
  let collapseVisible :=
    ICellViewModel.inputBlockCollapseNeeded vm && ICellViewModel.inputBlockShow vm
    && negb (ICellViewModel.editable vm) && isCodeCell this in
  let executionCount :=
    match CellData.execution_count (ICell.data cell) with
    | Some n => if n =? 0 then CountLiteral "-" else CountOf n
    | None => CountLiteral "-"
    end in
  let isEditOnlyCell := String.eqb (ICell.id cell) EditCellId in
  let toolbar := if isEditOnlyCell then None else Some (renderNormalToolbar this) in
  {| isBusy := busy;
     count :=
       match editExecutionCount (props this) with
       | Some s => if isEditOnlyCell && Js.truthy s then CountLiteral s else executionCount
       | None => executionCount
       end;
     countVisible := isCodeCell this;
     collapseVisible := collapseVisible;
     collapseOpen := ICellViewModel.inputBlockOpen vm;
     toolbar := toolbar |}.

(** [renderInput()] *)
Definition renderInput (this : t) : option CellInputProps :=
  if isCodeCell this then
    Some {| history := inputHistory this;
            inputAutoFocus := autoFocus (props this);
            inputTestMode := match testMode (props this) with Some b => b | None => false end;
            inputShowLineNumbers := ICellViewModel.showLineNumbers (cellVM (props this)) |}
  else None.

(** [hasOutput()] *)
Definition hasOutput (this : t) : bool :=
  bool_decide (ICell.state (getCell this) = finished)
  || bool_decide (ICell.state (getCell this) = error)
  || bool_decide (ICell.state (getCell this) = executing).

(** [shouldRenderResults()] *)
Definition shouldRenderResults (this : t) : bool :=
  isCodeCell this && hasOutput this
  && match CellData.outputs (ICell.data (getCell this)) with
     | Some outputs => Z.of_nat (List.length outputs) >? 0
     | None => false
     end
  && negb (ICellViewModel.hideOutput (cellVM (props this))).

(** [renderNormalCell()] *)
Definition renderNormalCell (this : t) : option CellLayout :=
  let vm := cellVM (props this) in
  let allowsPlainInput :=
    showCellInputCode (settings (props this)) || ICellViewModel.directInput vm
    || ICellViewModel.editable vm in
  let shouldRender := allowsPlainInput || shouldRenderResults this in
  let cellOuterClass := if ICellViewModel.editable vm then "cell-outer-editable" else "cell-outer" in
  let cellWrapperClass :=
    if ICellViewModel.editable vm then "cell-wrapper"
    else "cell-wrapper cell-wrapper-noneditable" in
  if shouldRender then
    Some {| wrapperClass := cellWrapperClass;
            outerClass := cellOuterClass;
            controls := renderControls this;
            cellInput := renderInput this;
            outputThemeMatplotlibPlots := themeMatplotlibPlots (settings (props this)) |}
  else None.

(** [render()] *)
Definition render (this : t) : View :=
  if String.eqb (CellData.cell_type (ICell.data (getCell this))) "messages"
  then InformationMessages (CellData.messages (ICell.data (getCell this)))
  else NormalCell (renderNormalCell this).

(** The toolbar of a rendered view, when it has one. *)
Definition toolbarOf (v : View) : option (list ImageButton) :=
  match v with
  | NormalCell (Some layout) => toolbar (controls layout)
  | _ => None
  end.

(** The toolbar's button showing [img]. *)
Definition buttonOf (img : ImageName) (tb : list ImageButton) : option ImageButton :=
  List.find (fun b => bool_decide (image b = img)) tb.

(** A button is visible when it is not hidden. *)
Definition visible (b : ImageButton) : bool := negb (hidden b).

Section UpdateCheck.
(** [fast-deep-equal] is an external package: the check is stated for any
    comparison function on props. *)
Variable fastDeepEqual : IInteractiveCellBaseProps -> IInteractiveCellBaseProps -> bool.

(** [shouldComponentUpdate(nextProps)] *)
Definition shouldComponentUpdate (this : t) (nextProps : IInteractiveCellBaseProps) : bool :=
  negb (fastDeepEqual (props this) nextProps).

(** React's update of a mounted instance with [nextProps]: the props are
    replaced either way; [render] and then [componentDidUpdate] run only
    when [shouldComponentUpdate] answers [true]. *)
Definition receiveProps (this : t) (nextProps : IInteractiveCellBaseProps) : t * list Call :=
  let prevProps := props this in
  let this' := with_props this nextProps in
  if shouldComponentUpdate this nextProps
  then (this', Render :: componentDidUpdate this' prevProps)
  else (this', []).

(** What happens to a mounted instance. *)
Inductive LifecycleEvent :=
| PropsChange (nextProps : IInteractiveCellBaseProps)
| RefsChange (wrapper : option nat) (code : bool)
| WrapperKeyDown (doc : Document) (event : IKeyboardEvent)
| EditorKeyDown (doc : Document) (cellId : string) (e : IKeyboardEvent)
| MouseClick
| MouseDoubleClick
| CollapseClick
| CodeChange (changes : list string) (cellId : string)
| FocusRequest (giveCodeFocus : bool).

(** One event on a mounted instance: React's prop update or ref
    attachment, or the handler bound to the event. *)
Definition step (this : t) (ev : LifecycleEvent) : t * list Call :=
  match ev with
  | PropsChange nextProps => receiveProps this nextProps
  | RefsChange wrapper code =>
      ({| props := props this; inputHistory := inputHistory this;
          wrapperRef := wrapper; codeRef := code |}, [])
  | WrapperKeyDown doc event => onKeyDown this doc event
  | EditorKeyDown doc cellId e => onEditCellKeyDown this doc cellId e
  | MouseClick => (this, onMouseClick this)
  | MouseDoubleClick => (this, onMouseDoubleClick this)
  | CollapseClick => (this, toggleInputBlockClick this)
  | CodeChange changes cellId => (this, onCodeChange changes cellId)
  | FocusRequest giveCodeFocus => (this, giveFocus this giveCodeFocus)
  end.

(** A sequence of events, with all the calls made on the way. *)
Fixpoint run (this : t) (evs : list LifecycleEvent) : t * list Call :=
  match evs with
  | [] => (this, [])
  | ev :: evs' =>
      let '(this', calls) := step this ev in
      let '(this'', calls') := run this' evs' in
      (this'', (calls ++ calls')%list)
  end.

(** An instance's life up to some point: its construction with [prop],
    then the events [evs]. *)
Definition lifetime (prop : IInteractiveCellBaseProps) (evs : list LifecycleEvent)
  : t * list Call :=
  let '(this, calls) := constructor prop in
  let '(this', calls') := run this evs in
  (this', (calls ++ calls')%list).

End UpdateCheck.

End Handlers.

End InteractiveCell.


(** ** The notebook surface: [NativeEditor] *)
Module NativeEditor.

(** Modelled from the spec: the [OSType] enumeration of
    [client/common/utils/platform] is not part of this file, which names
    [OSX] only; the spec speaks of the Apple platform and of other
    platforms. *)
Inductive OSType := Unknown | Windows | OSX | Linux.

#[global] Instance OSType_eq_dec : EqDecision OSType.
Proof. solve_decision. Defined.

(** The members of [NativeCommandType] the editor sends. *)
Inductive NativeCommandType := AddToEnd | RunAll | ToggleVariableExplorer | Save.

(** ['keyboard' | 'mouse'] *)
Inductive CommandSource := keyboard | mouse.

#[global] Instance NativeCommandType_eq_dec : EqDecision NativeCommandType.
Proof. solve_decision. Defined.
#[global] Instance CommandSource_eq_dec : EqDecision CommandSource.
Proof. solve_decision. Defined.

(** The DOM [KeyboardEvent] the window listener receives. *)
Record KeyboardEvent := mkKeyboardEvent {
  key : string;
  ctrlKey : bool;
  metaKey : bool;
  shiftKey : bool;
  altKey : bool
}.

(** The scrolling [main] element behind [contentPanelScrollRef].  Its
    measures, like those of the containers below, are CSS pixels, taken
    as integers. *)
Module ScrollPanel.
Record t := mk { offsetTop : Z; scrollTop : Z; clientHeight : Z }.
End ScrollPanel.

(** The [div] around a rendered cell, behind a container ref. *)
Module Container.
Record t := mk { offsetTop : Z; offsetHeight : Z }.
End Container.

(** A mounted [NativeCell], behind a cell ref. *)
Inductive NativeCell := NativeCellOf (cellId : string).

(** [React.RefObject<A>]: its [current] is an [A] or [null]. *)
Definition RefObject (A : Type) : Type := option A.

(** The functions handed to [setTimeout]. *)
Inductive Callback :=
| MoveSelectionToExisting (cellId : string) (focusCode : bool) (cursorPos : CursorPos)
| FocusNewCell (newCell : string).

(** Calls a handler makes on its collaborators. *)
Inductive Call :=
| StateControllerSave
    (* this.stateController.save() *)
| StateControllerSelectCell (cellId : string) (focusedCellId : option string)
    (* this.stateController.selectCell(cellId, focusedCellId) *)
| StateControllerClearNewCell
    (* this.stateController.setState({newCell: undefined}) *)
| SendMessageNativeCommand (command : NativeCommandType) (source : CommandSource)
    (* this.props.sendMessage(InteractiveWindowMessages.NativeCommand, {command, source}) *)
| SetState (cellVMs : list ICellViewModel.t)
    (* this.setState({cellVMs}) *)
| CellGiveFocus (cellId : string) (focusCode : bool) (cursorPos : CursorPos)
    (* ref.current.giveFocus(focusCode, cursorPos) on the cell of [cellId] *)
| SetTimeout (callback : Callback) (delay : Z)
    (* setTimeout(callback, delay) *)
| DebounceUpdateVisibleCells.
    (* this.debounceUpdateVisibleCells() *)

#[global] Instance Callback_eq_dec : EqDecision Callback.
Proof. solve_decision. Defined.
#[global] Instance Call_eq_dec : EqDecision Call.
Proof. solve_decision. Defined.

(** An instance: the props it reads ([cellVMs], [loadTotal], [newCellId])
    and its fields. *)
Record t := mkEditor {
  cellVMs : list ICellViewModel.t;
  loadTotal : option Z;
  newCellId : option string;
  contentPanelScrollRef : RefObject ScrollPanel.t;
  cellRefs : gmap string (RefObject NativeCell);
  cellContainerRefs : gmap string (RefObject Container.t);
  initialVisibilityUpdate : bool
}.

(** [sendCommand(command, source)] *)
Definition sendCommand (command : NativeCommandType) (source : CommandSource) : list Call :=
  [SendMessageNativeCommand command source].

(** How a handler ends: it returns, or it throws a [TypeError]; either
    way [calls] are the calls it made until then, in order. *)
Inductive Completion :=
| Returned (calls : list Call)
| Threw (calls : list Call).


(** [a; b]: the statements [b] run only when [a] has returned. *)
Definition andThen (a b : Completion) : Completion :=
  match a with
  | Returned calls =>
      match b with
      | Returned calls' => Returned (calls ++ calls')
      | Threw calls' => Threw (calls ++ calls')
      end
  | Threw calls => Threw calls
  end.

(** The state controller some handlers speak to. *)
Inductive StateController := TheStateController.

(** [this.stateController]: the class declares no such field, its
    constructor only calls [super(props)] and nothing assigns one, so the
    expression is [undefined] on every instance. *)
Definition stateController : option StateController := None.

(** A method call [this.stateController.m(...)], recorded as [call]: the
    member access on [undefined] throws before the call is made. *)
Definition onStateController (call : Call) : Completion :=
  match stateController with
  | Some _ => Returned [call]
  | None => Threw []
  end.

(** [saveFromToolbar()] *)
Definition saveFromToolbar : Completion :=
  andThen (onStateController StateControllerSave) (Returned (sendCommand Save mouse)).

(** [mainKeyDown(event)]; [os] is what [getOSType()] returns. *)
Definition mainKeyDown (os : OSType) (event : KeyboardEvent) : Completion :=
  if String.eqb (key event) "s" then
    if ctrlKey event || (metaKey event && bool_decide (os = OSX))
    then andThen (onStateController StateControllerSave)
                 (Returned (sendCommand Save keyboard))
    else Returned []
  else Returned [].



(** The cells of the rendered state: [cellVMs.map(c => c.cell)] without
    the message cells. *)
Definition renderedCells (this : t) : list ICell.t :=
  List.filter (fun c => negb (String.eqb (CellData.cell_type (ICell.data c)) "messages"))
              (List.map ICellViewModel.cell (cellVMs this)).

(** [selectCell(id, focusCode, cursorPos)] *)
Definition selectCell (this : t) (id : string) (focusCode : bool) (cursorPos : CursorPos)
  : Completion :=
  let cells := renderedCells this in
  andThen
    (match List.find (fun c => String.eqb (ICell.id c) id) cells with
     | Some _ =>
         onStateController
           (StateControllerSelectCell id (if focusCode then Some id else None))
     | None => Returned []
     end)
    (Returned [SetTimeout (MoveSelectionToExisting id focusCode cursorPos) 1]).

(** [scrollDiv(_div)]: a cell identity is truthy when it is not empty. *)
Definition scrollDiv (this : t) : Completion :=
  match newCellId this with
  | Some newCell =>
      if Js.truthy newCell
      then andThen (onStateController StateControllerClearNewCell)
                   (Returned [SetTimeout (FocusNewCell newCell) 0])
      else Returned []
  | None => Returned []
  end.


(** The [for] loop of [updateVisibleCells] from index [i], one unit of
    [fuel] per iteration; [break] returns, [continue] goes on with [i + 1].
    The result is the array and [makeChange] when the loop ends. *)
Fixpoint scanFrom (this : t) (visibleTop visibleBottom : Z) (fuel : nat) (i : nat)
  (cellVMs : list ICellViewModel.t) (makeChange : bool)
  : list ICellViewModel.t * bool :=
  match fuel with
  | O => (cellVMs, makeChange)
  | S fuel' =>
      match cellVMs !! i with
      | None => (cellVMs, makeChange)
      | Some cellVM =>
          let id := ICell.id (ICellViewModel.cell cellVM) in
          if ICellViewModel.useQuickEdit cellVM && bool_decide (is_Some (cellRefs this !! id))
          then
            match cellContainerRefs this !! id with
            | Some (Some current) =>
                let top := Container.offsetTop current in
                let bottom := top + Container.offsetHeight current in
                if top >? visibleBottom then (cellVMs, makeChange)
                else if bottom <? visibleTop
                then scanFrom this visibleTop visibleBottom fuel' (S i) cellVMs makeChange
                else scanFrom this visibleTop visibleBottom fuel' (S i)
                       (<[i := ICellViewModel.with_useQuickEdit cellVM false]> cellVMs) true
            | _ => scanFrom this visibleTop visibleBottom fuel' (S i) cellVMs makeChange
            end
          else scanFrom this visibleTop visibleBottom fuel' (S i) cellVMs makeChange
      end
  end.

(** The top of the visible band of a scroll panel. *)
Definition visibleTopOf (panel : ScrollPanel.t) : Z :=
  ScrollPanel.offsetTop panel + ScrollPanel.scrollTop panel.

(** The bottom of the visible band of a scroll panel. *)
Definition visibleBottomOf (panel : ScrollPanel.t) : Z :=
  visibleTopOf panel + ScrollPanel.clientHeight panel.

(** [updateVisibleCells()]: the loop runs over a copy of [props.cellVMs]
    and needs at most one iteration per cell. *)
Definition updateVisibleCells (this : t) : list Call :=
  match contentPanelScrollRef this with
  | Some panel =>
      if negb (Nat.eqb (size (cellContainerRefs this)) 0) then
        let visibleTop := visibleTopOf panel in
        let visibleBottom := visibleBottomOf panel in
        let '(cellVMs, makeChange) :=
          scanFrom this visibleTop visibleBottom
                   (List.length (cellVMs this)) 0 (cellVMs this) false in
        if makeChange then [SetState cellVMs] else []
      else []
  | None => []
  end.

(** [onContentScroll(_event)] *)
Definition onContentScroll (this : t) : list Call :=
  match contentPanelScrollRef this with
  | Some _ => [DebounceUpdateVisibleCells]
  | None => []
  end.

(** The part of [renderCell(cellVM, index)] that writes the instance: two
    fresh refs are registered under the cell's identity, and the first
    time the count of cell refs reaches a truthy [loadTotal] the visibility
    scan is requested. *)
Definition renderCell (this : t) (cellVM : ICellViewModel.t) : t * list Call :=
  let id := ICell.id (ICellViewModel.cell cellVM) in
  let cellRefs' := <[id := None]> (cellRefs this) in
  let cellContainerRefs' := <[id := None]> (cellContainerRefs this) in
  let settle :=
    match loadTotal this with
    | Some total =>
        negb (total =? 0) && (Z.of_nat (size cellRefs') >=? total)
        && negb (initialVisibilityUpdate this)
    | None => false
    end in
  ({| cellVMs := cellVMs this; loadTotal := loadTotal this; newCellId := newCellId this;
      contentPanelScrollRef := contentPanelScrollRef this;
      cellRefs := cellRefs'; cellContainerRefs := cellContainerRefs';
      initialVisibilityUpdate := initialVisibilityUpdate this || settle |},
   if settle then [DebounceUpdateVisibleCells] else []).

(** React attaching or detaching the two refs registered for [id]: it
    writes their [current] and nothing else. *)
Definition attachRefs (this : t) (id : string)
  (cell : RefObject NativeCell) (container : RefObject Container.t) : t :=
  {| cellVMs := cellVMs this; loadTotal := loadTotal this; newCellId := newCellId this;
     contentPanelScrollRef := contentPanelScrollRef this;
     cellRefs := alter (fun _ => cell) id (cellRefs this);
     cellContainerRefs := alter (fun _ => container) id (cellContainerRefs this);
     initialVisibilityUpdate := initialVisibilityUpdate this |}.

(** New props from the store ([cellVMs], [loadTotal] and [newCellId] may
    all change), and the scroll panel mounting or unmounting: the ref maps
    and the settle flag are not touched. *)
Definition withView (this : t) (vms : list ICellViewModel.t) (total : option Z)
  (newCell : option string) (panel : RefObject ScrollPanel.t) : t :=
  {| cellVMs := vms; loadTotal := total; newCellId := newCell;
     contentPanelScrollRef := panel;
     cellRefs := cellRefs this; cellContainerRefs := cellContainerRefs this;
     initialVisibilityUpdate := initialVisibilityUpdate this |}.

(** A freshly constructed editor: both ref maps are empty. *)
Definition initial (vms : list ICellViewModel.t) (total : option Z) : t :=
  {| cellVMs := vms; loadTotal := total; newCellId := None;
     contentPanelScrollRef := None;
     cellRefs := ∅; cellContainerRefs := ∅;
     initialVisibilityUpdate := false |}.

(** The states an editor goes through. *)
Inductive reachable : t -> Prop :=
| reachable_initial vms total : reachable (initial vms total)
| reachable_renderCell this cellVM :
    reachable this -> reachable (fst (renderCell this cellVM))
| reachable_attachRefs this id cell container :
    reachable this -> reachable (attachRefs this id cell container)
| reachable_withView this vms total newCell panel :
    reachable this -> reachable (withView this vms total newCell panel).

End NativeEditor.


(** ** The properties, in the words of the specification *)
Module InteractiveCellSpec.
Import InteractiveCell.

(** [k] line feeds. *)
Definition newlines (k : nat) : string := string_of_list_ascii (replicate k Js.LF).

(** [content] is [contents] with the blank lines at its end taken off:
    only line feeds were removed, and none is left at the end. *)
Definition trimsTo (contents content : string) : Prop :=
  (exists k, contents = String.append content (newlines k))
  /\ forall s, content <> String.append s Js.nl.

(** The submit combination: the line-break key with the shift modifier. *)
Definition isSubmitCombination (e : IKeyboardEvent) : Prop :=
  code e = "Enter" /\ shiftKey e = true.

(** What a submit does, given the instance before it, the editor's report
    and the handler's result: the trimmed content is added to the history
    the cell owns (if any) with the dirty tag, the editor is cleared, and
    [submitInput] is dispatched, and nothing else, with the trimmed text
    and the cell identity. *)
Definition submitOutcome (this : t) (info : IEditorInfo) (result : t * list Call) : Prop :=
  exists content,
    trimsTo (contents info) content
    /\ inputHistory (fst result)
       = option_map (InputHistory.add content (isDirty info)) (inputHistory this)
    /\ props (fst result) = props this
    /\ In EditorClear (snd result)
    /\ forall a, In (Dispatch a) (snd result)
                 <-> a = submitInput content (ICell.id (getCell this)).

(** The key event went no further and lost its default action. *)
Definition keyConsumed (calls : list Call) : Prop :=
  In StopPropagation calls /\ In PreventDefault calls.

(** A focusable element: one the selector matches, with a tab priority
    that is not negative. *)
Definition focusable (el : HTMLElement) : bool :=
  matchesFocusable el && (tabIndex el >=? 0).

(** The elements after the one of identity [n], in document order. *)
Fixpoint afterNode (n : nat) (l : list HTMLElement) : list HTMLElement :=
  match l with
  | [] => []
  | x :: l' => if Nat.eqb (node x) n then l' else afterNode n l'
  end.

(** The next focusable element after [focused] in document order,
    wrapping to the first one of the document. *)
Definition nextFocusable (doc : Document) (focused : HTMLElement) : option HTMLElement :=
  match List.filter focusable (afterNode (node focused) (elements doc)) with
  | next :: _ => Some next
  | [] => head (List.filter focusable (elements doc))
  end.

(** The calls move the focus to the next focusable element after
    [focused], and do nothing else. *)
Definition focusMovesToNext (doc : Document) (focused : HTMLElement) (calls : list Call)
  : Prop :=
  exists next, nextFocusable doc focused = Some next /\ calls = [ElementFocus (node next)].

(** A document: no two elements share an identity, and the focused
    element is one of them. *)
Definition wellFormed (doc : Document) : Prop :=
  NoDup (List.map node (elements doc))
  /\ forall el, activeElement doc = Some el -> In el (elements doc).

(** The cell has a source file: a [file] that is present, not empty and
    not the empty-file sentinel. *)
Definition hasSourceFile `{Identifiers} (cell : ICell.t) : Prop :=
  exists file, ICell.file cell = Some file /\ file <> "" /\ file <> EmptyFileName.

(** The number of [InputHistory] objects constructed by [calls]. *)
Definition historiesCreated (calls : list Call) : nat :=
  List.length (List.filter (fun c => match c with NewInputHistory => true | _ => false end) calls).

(** An event that leaves the cell identity of the props as [id]. *)
Definition keepsIdentity (id : string) (ev : LifecycleEvent) : Prop :=
  match ev with
  | PropsChange nextProps => ICell.id (ICellViewModel.cell (cellVM nextProps)) = id
  | _ => True
  end.

End InteractiveCellSpec.

Module NativeEditorSpec.
Import NativeEditor.


(** How many times [c] is called in [calls]. *)
Definition occurrences (c : Call) (calls : list Call) : nat :=
  List.length (List.filter (fun x => bool_decide (x = c)) calls).




(** The container element rendered for a cell, when it is attached. *)
Definition containerOf (this : t) (cellVM : ICellViewModel.t) : option Container.t :=
  match cellContainerRefs this !! ICell.id (ICellViewModel.cell cellVM) with
  | Some (Some current) => Some current
  | _ => None
  end.

(** The bottom edge of a container. *)
Definition bottomOf (el : Container.t) : Z :=
  Container.offsetTop el + Container.offsetHeight el.



(** The container meets the visible band. *)
Definition intersects (visibleTop visibleBottom : Z) (el : Container.t) : Prop :=
  Container.offsetTop el <= visibleBottom /\ visibleTop <= bottomOf el.

(** Both refs of a cell are registered together. *)
Definition refsPaired (this : t) : Prop :=
  dom (cellRefs this) = dom (cellContainerRefs this).



(** Two view models that differ at most in the quick-edit flag. *)
Definition sameButQuickEdit (a b : ICellViewModel.t) : Prop :=
  ICellViewModel.cell a = ICellViewModel.cell b
  /\ ICellViewModel.selected a = ICellViewModel.selected b
  /\ ICellViewModel.focused a = ICellViewModel.focused b
  /\ ICellViewModel.editable a = ICellViewModel.editable b
  /\ ICellViewModel.directInput a = ICellViewModel.directInput b
  /\ ICellViewModel.inputBlockShow a = ICellViewModel.inputBlockShow b
  /\ ICellViewModel.inputBlockOpen a = ICellViewModel.inputBlockOpen b
  /\ ICellViewModel.inputBlockCollapseNeeded a = ICellViewModel.inputBlockCollapseNeeded b
  /\ ICellViewModel.showLineNumbers a = ICellViewModel.showLineNumbers b
  /\ ICellViewModel.hideOutput a = ICellViewModel.hideOutput b.

(** The container the scan measures for a cell: the cell is in quick-edit
    mode, has a cell ref, and its container ref is attached. *)
Definition measured (this : t) (cellVM : ICellViewModel.t) : option Container.t :=
  let id := ICell.id (ICellViewModel.cell cellVM) in
  if ICellViewModel.useQuickEdit cellVM && bool_decide (is_Some (cellRefs this !! id))
  then match cellContainerRefs this !! id with
       | Some (Some current) => Some current
       | _ => None
       end
  else None.

(** The scan breaks at this cell. *)
Definition stopsAt (this : t) (visibleBottom : Z) (cellVM : ICellViewModel.t) : bool :=
  match measured this cellVM with
  | Some el => Container.offsetTop el >? visibleBottom
  | None => false
  end.

(** The scan, when it gets to this cell, promotes it. *)
Definition promotes (this : t) (visibleTop visibleBottom : Z) (cellVM : ICellViewModel.t) : bool :=
  match measured this cellVM with
  | Some el => negb (Container.offsetTop el >? visibleBottom)
               && negb (bottomOf el <? visibleTop)
  | None => false
  end.

(** The scan gets past the first [i] cells of [l] without breaking. *)
Definition reachedb (this : t) (visibleBottom : Z) (l : list ICellViewModel.t) (i : nat)
  : bool :=
  forallb (fun c => negb (stopsAt this visibleBottom c)) (take i l).

(** The scan as a recursion on the cells still to visit: the cells as
    they are left, and whether one was promoted. *)
Fixpoint scanList (this : t) (visibleTop visibleBottom : Z) (l : list ICellViewModel.t)
  : list ICellViewModel.t * bool :=
  match l with
  | [] => ([], false)
  | cellVM :: rest =>
      if stopsAt this visibleBottom cellVM then (cellVM :: rest, false)
      else
        let '(rest', changed) := scanList this visibleTop visibleBottom rest in
        if promotes this visibleTop visibleBottom cellVM
        then (ICellViewModel.with_useQuickEdit cellVM false :: rest', true)
        else (cellVM :: rest', changed)
  end.

End NativeEditorSpec.


(** ** Values used in examples *)
Module Samples.
Import InteractiveCell.

(** Stand-ins for the two sentinels. *)
Definition sampleIdentifiers : Identifiers :=
  {| EditCellId := "edit-cell"; EmptyFileName := "empty-file" |}.

(** A finished code cell with one output. *)
Definition codeCell (id : string) (file : option string) : ICell.t :=
  {| ICell.id := id; ICell.file := file; ICell.state := finished;
     ICell.data := {| CellData.cell_type := "code"; CellData.messages := [];
                      CellData.execution_count := Some 3;
                      CellData.outputs := Some ["4"] |} |}.

Definition viewModel (cell : ICell.t) (quickEdit : bool) : ICellViewModel.t :=
  {| ICellViewModel.cell := cell;
     ICellViewModel.selected := false; ICellViewModel.focused := false;
     ICellViewModel.editable := false; ICellViewModel.directInput := false;
     ICellViewModel.inputBlockShow := true; ICellViewModel.inputBlockOpen := true;
     ICellViewModel.inputBlockCollapseNeeded := false;
     ICellViewModel.showLineNumbers := false; ICellViewModel.hideOutput := false;
     ICellViewModel.useQuickEdit := quickEdit |}.

Definition propsOf (cell : ICell.t) : IInteractiveCellBaseProps :=
  {| role := Some "listitem"; cellVM := viewModel cell false;
     baseTheme := "vscode-light"; codeTheme := "light";
     testMode := None; autoFocus := false; maxTextSize := None;
     showWatermark := false; monacoTheme := None;
     editExecutionCount := None; editorMeasureClassName := None;
     font := {| size := 14; family := "monospace" |};
     settings := {| showCellInputCode := true; themeMatplotlibPlots := false;
                    enableGather := false |} |}.

(** The always-present input cell, freshly constructed, and an ordinary
    cell that came from a file. *)
Definition editCellInstance : t :=
  fst (constructor (H := sampleIdentifiers) (propsOf (codeCell "edit-cell" None))).

Definition fileCellInstance : t :=
  fst (constructor (H := sampleIdentifiers) (propsOf (codeCell "cell-1" (Some "notebook.py")))).

(** A comparison of props that answers [true] exactly on equal values. *)
Definition structuralEqual (p q : IInteractiveCellBaseProps) : bool := bool_decide (p = q).

(** Shift+Enter from the editor holding [contents]. *)
Definition shiftEnter (contents : string) (dirty : bool) : IKeyboardEvent :=
  {| code := "Enter"; shiftKey := true; ctrlKey := false; metaKey := false;
     altKey := false;
     editorInfo := Some {| contents := contents; isDirty := dirty; isSuggesting := false |} |}.

(** Escape from the editor, no suggestion showing. *)
Definition escape : IKeyboardEvent :=
  {| code := "Escape"; shiftKey := false; ctrlKey := false; metaKey := false;
     altKey := false;
     editorInfo := Some {| contents := "x"; isDirty := true; isSuggesting := false |} |}.

(** ["a\nb\n\n\n"] and ["a\nb"] *)
Definition abBlank : string :=
  String.append "a" (String.append Js.nl (String.append "b"
    (String.append Js.nl (String.append Js.nl Js.nl)))).

Definition ab : string := String.append "a" (String.append Js.nl "b").

(** A page with two buttons around the editor's text area, and one where
    a [div] between two buttons holds the focus. *)
Definition firstButton : HTMLElement := {| node := 1; tag := button; tabIndex := 0 |}.
Definition editorArea : HTMLElement := {| node := 2; tag := textarea; tabIndex := 0 |}.
Definition wrapperDiv : HTMLElement := {| node := 2; tag := otherTag "div"; tabIndex := 0 |}.
Definition lastButton : HTMLElement := {| node := 3; tag := button; tabIndex := 0 |}.

Definition editorFocused : Document :=
  {| elements := [firstButton; editorArea; lastButton]; activeElement := Some editorArea |}.

Definition divFocused : Document :=
  {| elements := [firstButton; wrapperDiv; lastButton]; activeElement := Some wrapperDiv |}.

(** Two quick-edit cells, the first scrolled out above a band from 100 to
    300, the second inside it. *)
Definition c1 : ICellViewModel.t := viewModel (codeCell "c1" None) true.
Definition c2 : ICellViewModel.t := viewModel (codeCell "c2" None) true.

Definition scrolledEditor : NativeEditor.t :=
  {| NativeEditor.cellVMs := [c1; c2];
     NativeEditor.loadTotal := Some 2;
     NativeEditor.newCellId := None;
     NativeEditor.contentPanelScrollRef :=
       Some {| NativeEditor.ScrollPanel.offsetTop := 0;
               NativeEditor.ScrollPanel.scrollTop := 100;
               NativeEditor.ScrollPanel.clientHeight := 200 |};
     NativeEditor.cellRefs :=
       {[ "c1" := Some (NativeEditor.NativeCellOf "c1");
          "c2" := Some (NativeEditor.NativeCellOf "c2") ]};
     NativeEditor.cellContainerRefs :=
       {[ "c1" := Some {| NativeEditor.Container.offsetTop := 0;
                          NativeEditor.Container.offsetHeight := 80 |};
          "c2" := Some {| NativeEditor.Container.offsetTop := 80;
                          NativeEditor.Container.offsetHeight := 120 |} ]};
     NativeEditor.initialVisibilityUpdate := true |}.

End Samples.


(** ** Further parts of the two components *)

(** The flash of a cell ([scrollAndFlash]) on the class list of its
    wrapper element. *)
Module CellFlash.
Import InteractiveCell.

(** What [scrollAndFlash] asks of the browser besides the class change. *)
Inductive FlashCall :=
| ScrollIntoView            (* wrapperRef.current.scrollIntoView({...}) *)
| RemoveFlashAfter (delay : Z).  (* setTimeout(() => ..., delay) *)

(** [scrollAndFlash()], given the wrapper's [classList]: the new class
    list and the calls made. *)
Definition scrollAndFlash (this : t) (classList : gset string)
  : gset string * list FlashCall :=
  match wrapperRef this with
  | Some _ => ({["flash"]} ∪ classList, [ScrollIntoView; RemoveFlashAfter 1000])
  | None => (classList, [])
  end.

(** The function [scrollAndFlash] hands to [setTimeout], run on the
    instance as it is when the timer fires. *)
Definition flashTimerFired (this : t) (classList : gset string) : gset string :=
  match wrapperRef this with
  | Some _ => classList ∖ {["flash"]}
  | None => classList
  end.

End CellFlash.

(** The editor over a run of renders, ref attachments and view changes. *)
Module NativeEditorLife.
Import NativeEditor.

(** What happens to the fields of a mounted editor. *)
Inductive EditorEvent :=
| CellRendered (cellVM : ICellViewModel.t)
| RefsAttached (id : string) (cell : RefObject NativeCell)
    (container : RefObject Container.t)
| ViewChanged (vms : list ICellViewModel.t) (total : option Z)
    (newCell : option string) (panel : RefObject ScrollPanel.t).

(** One event: the new instance and the calls made. *)
Definition applyEvent (this : t) (ev : EditorEvent) : t * list Call :=
  match ev with
  | CellRendered cellVM => renderCell this cellVM
  | RefsAttached id cell container => (attachRefs this id cell container, [])
  | ViewChanged vms total newCell panel => (withView this vms total newCell panel, [])
  end.

(** A sequence of events, with all the calls made on the way. *)
Fixpoint applyEvents (this : t) (evs : list EditorEvent) : t * list Call :=
  match evs with
  | [] => (this, [])
  | ev :: evs' =>
      let '(this', calls) := applyEvent this ev in
      let '(this'', calls') := applyEvents this' evs' in
      (this'', (calls ++ calls')%list)
  end.

(** The test of [renderCell(cellVM, index)] for the add-cell line below a
    cell: [index === this.props.cellVMs.length - 1]. *)
Definition lastLine (this : t) (index : Z) : bool :=
  index =? Z.of_nat (List.length (cellVMs this)) - 1.

(** The identities that have a cell ref. *)
Definition registered (this : t) : gset string := dom (cellRefs this).

(** A [loadTotal] that is not truthy: [undefined] or [0]. *)
Definition falsyTotal (total : option Z) : Prop := total = None \/ total = Some 0.

(** An event that, if it brings new props, brings a [loadTotal] that
    satisfies [P]. *)
Definition keepsLoadTotal (P : option Z -> Prop) (ev : EditorEvent) : Prop :=
  match ev with
  | ViewChanged _ total _ _ => P total
  | _ => True
  end.

End NativeEditorLife.

(** More values used in examples. *)
Module MoreSamples.
Import InteractiveCell.

(** A banner cell. *)
Definition messageCell (id : string) : ICell.t :=
  {| ICell.id := id; ICell.file := None; ICell.state := finished;
     ICell.data := {| CellData.cell_type := "messages";
                      CellData.messages := ["Connected to kernel"];
                      CellData.execution_count := None;
                      CellData.outputs := None |} |}.

(** The file cell once React has attached its wrapper and editor. *)
Definition mountedFileCell : t :=
  {| props := props Samples.fileCellInstance;
     inputHistory := inputHistory Samples.fileCellInstance;
     wrapperRef := Some 7%nat; codeRef := true |}.

(** The file cell's props with the cell selected and its editor focused. *)
Definition selectedProps : IInteractiveCellBaseProps :=
  {| role := role (props Samples.fileCellInstance);
     cellVM :=
       {| ICellViewModel.cell := Samples.codeCell "cell-1" (Some "notebook.py");
          ICellViewModel.selected := true; ICellViewModel.focused := true;
          ICellViewModel.editable := false; ICellViewModel.directInput := false;
          ICellViewModel.inputBlockShow := true; ICellViewModel.inputBlockOpen := true;
          ICellViewModel.inputBlockCollapseNeeded := false;
          ICellViewModel.showLineNumbers := false; ICellViewModel.hideOutput := false;
          ICellViewModel.useQuickEdit := false |};
     baseTheme := "vscode-light"; codeTheme := "light";
     testMode := None; autoFocus := false; maxTextSize := None;
     showWatermark := false; monacoTheme := None;
     editExecutionCount := None; editorMeasureClassName := None;
     font := {| size := 14; family := "monospace" |};
     settings := {| showCellInputCode := true; themeMatplotlibPlots := false;
                    enableGather := false |} |}.

(** An editor showing a banner and one code cell, both under the
    identity ["m1"] or ["c2"]. *)
Definition bannerEditor : NativeEditor.t :=
  NativeEditor.initial
    [Samples.viewModel (messageCell "m1") false; Samples.c2] (Some 2).


(** An editor that has just been told of a new cell. *)
Definition editorWithNewCell : NativeEditor.t :=
  {| NativeEditor.cellVMs := NativeEditor.cellVMs Samples.scrolledEditor;
     NativeEditor.loadTotal := NativeEditor.loadTotal Samples.scrolledEditor;
     NativeEditor.newCellId := Some "c2";
     NativeEditor.contentPanelScrollRef :=
       NativeEditor.contentPanelScrollRef Samples.scrolledEditor;
     NativeEditor.cellRefs := NativeEditor.cellRefs Samples.scrolledEditor;
     NativeEditor.cellContainerRefs := NativeEditor.cellContainerRefs Samples.scrolledEditor;
     NativeEditor.initialVisibilityUpdate := true |}.

End MoreSamples.


(** ** Facts about the cell view *)
Module InteractiveCellFacts.
Import InteractiveCell InteractiveCellSpec.
Local Open Scope list_scope.
Local Arguments String.eqb : simpl never.

(** *** Strings as lists of units *)

Lemma string_of_list_ascii_app (l1 l2 : list ascii) :
  string_of_list_ascii (l1 ++ l2)
  = String.append (string_of_list_ascii l1) (string_of_list_ascii l2).
Proof. induction l1 as [|c l1 IH]; simpl; [done | by rewrite IH]. Qed.

Lemma list_ascii_of_string_app (s1 s2 : string) :
  list_ascii_of_string (String.append s1 s2)
  = list_ascii_of_string s1 ++ list_ascii_of_string s2.
Proof. induction s1 as [|c s1 IH]; simpl; [done | by rewrite IH]. Qed.

Lemma all_line_feeds (l : list ascii) :
  (forall i x, l !! i = Some x -> x = Js.LF) -> l = replicate (length l) Js.LF.
Proof.
  induction l as [|x l IH]; intros Hall; [done |].
  simpl. rewrite (Hall 0%nat x eq_refl). f_equal.
  apply IH. intros i y Hi. exact (Hall (S i) y Hi).
Qed.

(** *** The trailing-newline loop *)

(** With enough fuel the loop ends where the source's loop does: at [-1]
    or on a unit that is no line feed, having passed only line feeds. *)
Lemma trimLoop_spec (fuel : nat) (contents : string) (endPos : Z) :
  -1 <= endPos < Z.of_nat fuel ->
  let r := trimLoop fuel contents endPos in
  -1 <= r <= endPos
  /\ (forall j, r < j <= endPos -> Js.charAt contents j = Some Js.LF)
  /\ (0 <= r -> Js.charAt contents r <> Some Js.LF).
Proof.
  revert endPos. induction fuel as [|fuel IH]; intros endPos Hrange; simpl.
  { split; [lia |]. split; [intros j Hj; lia | lia]. }
  destruct (endPos >=? 0) eqn:Hpos; simpl.
  - case_bool_decide as Hlf.
    + destruct (IH (endPos - 1)) as (Hr & Hall & Hstop); [lia |].
      split; [lia |]. split; [| exact Hstop].
      intros j Hj. destruct (decide (j = endPos)) as [-> | Hne]; [done |].
      apply Hall. lia.
    + split; [lia |]. split; [intros j Hj; lia | done].
  - assert (endPos = -1) as -> by lia.
    split; [lia |]. split; [intros j Hj; lia | lia].
Qed.

Lemma trimTrailingNewlines_trims (contents : string) :
  trimsTo contents (trimTrailingNewlines contents).
Proof.
  unfold trimTrailingNewlines, Js.slice0, Js.length.
  set (cs := list_ascii_of_string contents).
  assert (length cs = String.length contents) as Hlen.
  { subst cs. induction contents as [|c s IH]; simpl; [done | by rewrite IH]. }
  destruct (trimLoop_spec (String.length contents) contents
              (Z.of_nat (String.length contents) - 1)) as (Hr & Hall & Hstop); [lia |].
  set (r := trimLoop _ _ _) in *.
  assert (forall j, 0 <= j -> Js.charAt contents j = cs !! Z.to_nat j) as Hat.
  { intros j Hj. unfold Js.charAt. destruct (j <? 0) eqn:E; [lia | done]. }
  split.
  - exists (length (drop (Z.to_nat (r + 1)) cs)).
    unfold newlines. rewrite <- all_line_feeds.
    + rewrite <- string_of_list_ascii_app, take_drop. subst cs.
      by rewrite string_of_list_ascii_of_string.
    + intros i x Hi. rewrite lookup_drop in Hi.
      assert (Z.to_nat (r + 1) + i < length cs)%nat as Hlt
        by (apply lookup_lt_is_Some; eauto).
      specialize (Hall (Z.of_nat (Z.to_nat (r + 1) + i))).
      rewrite Hat, Nat2Z.id, Hi in Hall by lia.
      assert (Some x = Some Js.LF) as Heq by (apply Hall; lia).
      congruence.
  - intros s Hs.
    apply (f_equal list_ascii_of_string) in Hs.
    rewrite list_ascii_of_string_of_list_ascii, list_ascii_of_string_app in Hs.
    simpl in Hs.
    destruct (decide (r = -1)) as [Hm | Hm].
    + rewrite Hm in Hs. simpl in Hs. by destruct (list_ascii_of_string s).
    + assert (length (take (Z.to_nat (r + 1)) cs) = Z.to_nat (r + 1)) as Hl.
      { rewrite length_take. lia. }
      rewrite Hs, length_app in Hl. simpl in Hl.
      assert (take (Z.to_nat (r + 1)) cs !! Z.to_nat r = Some Js.LF) as Hlast.
      { rewrite Hs. rewrite lookup_app_r by lia.
        replace (Z.to_nat r - length (list_ascii_of_string s))%nat with 0%nat by lia.
        done. }
      rewrite lookup_take_lt in Hlast by lia.
      apply Hstop; [lia |]. by rewrite Hat by lia.
Qed.

(** *** Submitting the editor's contents *)

Lemma onEditCellKeyDown_submit (this : t) (doc : Document) (cellId : string)
  (e : IKeyboardEvent) :
  isSubmitCombination e -> onEditCellKeyDown this doc cellId e = editCellSubmit this e.
Proof. intros [Hcode Hshift]. unfold onEditCellKeyDown. by rewrite Hcode, Hshift. Qed.

Lemma truthy_nonempty (s : string) : s <> "" -> Js.truthy s = true.
Proof. by destruct s. Qed.

Lemma editCellSubmit_content (this : t) (e : IKeyboardEvent) (info : IEditorInfo) :
  editorInfo e = Some info -> contents info <> "" ->
  let content := trimTrailingNewlines (contents info) in
  editCellSubmit this e =
    (match inputHistory this with
     | Some h => with_inputHistory this (Some (InputHistory.add content (isDirty info) h))
     | None => this
     end,
     [StopPropagation; PreventDefault; EditorClear;
      Dispatch (submitInput content (ICell.id (getCell this)))]).
Proof.
  intros Hinfo Hne. unfold editCellSubmit.
  by rewrite Hinfo, (truthy_nonempty _ Hne).
Qed.

Lemma editCellSubmit_empty (this : t) (e : IKeyboardEvent) (info : IEditorInfo) :
  editorInfo e = Some info -> contents info = "" -> editCellSubmit this e = (this, []).
Proof. intros Hinfo Hempty. unfold editCellSubmit. by rewrite Hinfo, Hempty. Qed.

Example trim_ab : trimTrailingNewlines Samples.abBlank = Samples.ab.
Proof. reflexivity. Qed.

Example trim_only_newlines : trimTrailingNewlines (String.append Js.nl Js.nl) = "".
Proof. reflexivity. Qed.

(** C1, as amended: a Shift+Enter that comes with the editor's report and
    non-empty contents trims the line feeds off the end of the contents,
    adds the trimmed content with the dirty tag to the history the cell
    owns (if any), clears the editor and dispatches [submitInput], and no
    other action, with the trimmed text and the cell identity; contents
    ["a\nb\n\n\n"] give history entry and submitted text ["a\nb"]; and a
    Shift+Enter that comes with no editor report, or with empty contents,
    does nothing: the instance is as before and no call is made. *)
Theorem submit_with_content :
  (forall (this : t) (doc : Document) (cellId : string) (e : IKeyboardEvent)
          (info : IEditorInfo),
      isSubmitCombination e -> editorInfo e = Some info -> contents info <> "" ->
      submitOutcome this info (onEditCellKeyDown this doc cellId e))
  /\ (forall (this : t) (doc : Document) (cellId : string) (dirty : bool),
        let result :=
          onEditCellKeyDown this doc cellId (Samples.shiftEnter Samples.abBlank dirty) in
        inputHistory (fst result)
        = option_map (InputHistory.add Samples.ab dirty) (inputHistory this)
        /\ snd result = [StopPropagation; PreventDefault; EditorClear;
                         Dispatch (submitInput Samples.ab (ICell.id (getCell this)))])
  /\ (forall (this : t) (doc : Document) (cellId : string) (e : IKeyboardEvent),
        isSubmitCombination e ->
        editorInfo e = None
        \/ (exists info, editorInfo e = Some info /\ contents info = "") ->
        onEditCellKeyDown this doc cellId e = (this, [])).
Proof.
  split; [| split].
  - intros this doc cellId e info Hcombo Hinfo Hne.
    rewrite (onEditCellKeyDown_submit _ _ _ _ Hcombo).
    rewrite (editCellSubmit_content _ _ _ Hinfo Hne).
    exists (trimTrailingNewlines (contents info)). simpl.
    split; [apply trimTrailingNewlines_trims |].
    split; [destruct (inputHistory this) eqn:E; simpl; by rewrite ?E |].
    split; [by destruct (inputHistory this) |].
    split; [tauto |].
    intros a0. split.
    + intros [Hin | [Hin | [Hin | [Hin | []]]]]; congruence.
    + intros ->. tauto.
  - intros this doc cellId dirty result. subst result.
    rewrite onEditCellKeyDown_submit by done.
    rewrite (editCellSubmit_content this (Samples.shiftEnter Samples.abBlank dirty)
               {| contents := Samples.abBlank; isDirty := dirty; isSuggesting := false |}
               eq_refl) by done.
    cbn [contents isDirty]. rewrite trim_ab. simpl.
    split; [destruct (inputHistory this) eqn:E; simpl; by rewrite ?E | done].
  - intros this doc cellId e Hcombo Hnone.
    rewrite (onEditCellKeyDown_submit _ _ _ _ Hcombo).
    destruct Hnone as [Hinfo | (info & Hinfo & Hempty)].
    + unfold editCellSubmit. by rewrite Hinfo.
    + exact (editCellSubmit_empty _ _ _ Hinfo Hempty).
Qed.

(** The edit cell submits ["a\nb\n\n\n"]: its history receives ["a\nb"]. *)
Lemma submit_with_content_witness :
  submitOutcome Samples.editCellInstance
    {| contents := Samples.abBlank; isDirty := true; isSuggesting := false |}
    (onEditCellKeyDown Samples.editCellInstance Samples.editorFocused "edit-cell"
       (Samples.shiftEnter Samples.abBlank true)).
Proof.
  apply (proj1 submit_with_content); [by split | reflexivity | discriminate].
Defined.

(** C1 as stated fails on an empty editor: Shift+Enter then clears
    nothing and dispatches nothing. *)
Lemma submit_of_empty_editor :
  isSubmitCombination (Samples.shiftEnter "" false)
  /\ ~ submitOutcome Samples.editCellInstance
         {| contents := ""; isDirty := false; isSuggesting := false |}
         (onEditCellKeyDown Samples.editCellInstance Samples.editorFocused "edit-cell"
            (Samples.shiftEnter "" false)).
Proof.
  split; [by split |].
  intros (content & _ & _ & _ & Hclear & _). exact Hclear.
Qed.

(** C7, as amended: a Shift+Enter that comes with the editor's report and
    non-empty contents is stopped from propagating and loses its default
    action; a Shift+Enter that comes with no editor report, or with empty
    contents, is neither stopped nor prevented. *)
Theorem submit_consumes_key (this : t) (doc : Document) (cellId : string)
  (e : IKeyboardEvent) :
  isSubmitCombination e ->
  (forall info, editorInfo e = Some info -> contents info <> "" ->
                keyConsumed (snd (onEditCellKeyDown this doc cellId e)))
  /\ (editorInfo e = None
      \/ (exists info, editorInfo e = Some info /\ contents info = "") ->
      ~ In StopPropagation (snd (onEditCellKeyDown this doc cellId e))
      /\ ~ In PreventDefault (snd (onEditCellKeyDown this doc cellId e))).
Proof.
  intros Hcombo. rewrite (onEditCellKeyDown_submit _ _ _ _ Hcombo). split.
  - intros info Hinfo Hne. rewrite (editCellSubmit_content _ _ _ Hinfo Hne).
    split; simpl; tauto.
  - intros Hnone.
    assert (editCellSubmit this e = (this, [])) as ->;
      [| split; intros []].
    destruct Hnone as [Hinfo | (info & Hinfo & Hempty)].
    + unfold editCellSubmit. by rewrite Hinfo.
    + exact (editCellSubmit_empty _ _ _ Hinfo Hempty).
Qed.

Lemma submit_consumes_key_witness :
  keyConsumed (snd (onEditCellKeyDown Samples.fileCellInstance Samples.editorFocused
                      "cell-1" (Samples.shiftEnter "x = 1" true))).
Proof.
  apply (proj1 (submit_consumes_key Samples.fileCellInstance Samples.editorFocused
                  "cell-1" (Samples.shiftEnter "x = 1" true) (conj eq_refl eq_refl))
           {| contents := "x = 1"; isDirty := true; isSuggesting := false |});
    [reflexivity | discriminate].
Defined.

(** C7 as stated fails on an empty editor: the Shift+Enter is left to
    propagate with its default action. *)
Lemma empty_submit_not_consumed :
  isSubmitCombination (Samples.shiftEnter "" true)
  /\ ~ keyConsumed (snd (onEditCellKeyDown Samples.fileCellInstance Samples.editorFocused
                           "cell-1" (Samples.shiftEnter "" true))).
Proof. split; [by split |]. intros [Hstop _]. exact Hstop. Qed.

(** *** Leaving the editor with Escape *)

Lemma index_of_nat {A} (l : list A) (n : nat) : Js.index l (Z.of_nat n) = l !! n.
Proof.
  unfold Js.index. destruct (Z.of_nat n <? 0) eqn:E.
  - apply Z.ltb_lt in E. lia.
  - by rewrite Nat2Z.id.
Qed.

Lemma tabable_focusable (doc : Document) :
  List.filter (fun i => tabIndex i >=? 0) (querySelectorAll doc)
  = List.filter focusable (elements doc).
Proof.
  unfold querySelectorAll, focusable.
  induction (elements doc) as [|x l IH]; simpl; [done |].
  destruct (matchesFocusable x); simpl; [| exact IH].
  destruct (tabIndex x >=? 0); by rewrite IH.
Qed.

Lemma indexOfFrom_absent (l : list HTMLElement) (x : HTMLElement) (i : Z) :
  (forall y, In y l -> node y <> node x) -> indexOfFrom l x i = -1.
Proof.
  revert i. induction l as [|y l IH]; intros i Habs; simpl; [done |].
  destruct (Nat.eqb_spec (node y) (node x)) as [Heq | _].
  - exfalso. apply (Habs y); [by left | done].
  - apply IH. intros z Hz. apply Habs. by right.
Qed.

(** In a list without repeated identities, the element after [x] among
    the focusable ones is the first focusable one after [x]. *)
Lemma indexOfFrom_next (l : list HTMLElement) (x : HTMLElement) (i : Z) :
  NoDup (List.map node l) -> In x l -> focusable x = true ->
  exists p : nat,
    indexOfFrom (List.filter focusable l) x i = i + Z.of_nat p
    /\ List.filter focusable l !! S p
       = head (List.filter focusable (afterNode (node x) l)).
Proof.
  revert i. induction l as [|y l IH]; intros i Hnd Hin Hfoc; [done |].
  simpl in Hnd. apply NoDup_cons in Hnd as [Hfresh Hnd].
  simpl. destruct (Nat.eqb_spec (node y) (node x)) as [Heq | Hne].
  - assert (x = y) as <-.
    { destruct Hin as [-> | Hin]; [done |]. exfalso. apply Hfresh.
      rewrite Heq. apply list_elem_of_In, in_map, Hin. }
    rewrite Hfoc. simpl. rewrite Nat.eqb_refl. exists 0%nat.
    split; [lia |]. by destruct (List.filter focusable l).
  - destruct Hin as [-> | Hin]; [done |].
    destruct (focusable y) eqn:Hy; simpl.
    + destruct (Nat.eqb_spec (node y) (node x)) as [? | _]; [done |].
      destruct (IH (i + 1) Hnd Hin Hfoc) as (p & Hidx & Hnext).
      exists (S p). split; [lia | exact Hnext].
    + exact (IH i Hnd Hin Hfoc).
Qed.

Lemma findTabStop_next (doc : Document) (focused : HTMLElement) :
  NoDup (List.map node (elements doc)) -> In focused (elements doc) ->
  focusable focused = true ->
  findTabStop doc 1 focused = nextFocusable doc focused.
Proof.
  intros Hnd Hin Hfoc. unfold findTabStop, nextFocusable, indexOf.
  rewrite tabable_focusable. simpl.
  destruct (indexOfFrom_next _ _ 0 Hnd Hin Hfoc) as (p & -> & Hnext).
  replace (0 + Z.of_nat p + 1) with (Z.of_nat (S p)) by lia.
  change 0 with (Z.of_nat 0). rewrite !index_of_nat, Hnext.
  destruct (List.filter focusable (afterNode (node focused) (elements doc))); simpl; [| done].
  by destruct (List.filter focusable (elements doc)).
Qed.

Lemma findTabStop_from_outside (doc : Document) (focused : HTMLElement) :
  NoDup (List.map node (elements doc)) -> In focused (elements doc) ->
  focusable focused = false ->
  findTabStop doc 1 focused = head (List.filter focusable (elements doc)).
Proof.
  intros Hnd Hin Hfoc. unfold findTabStop, indexOf.
  rewrite tabable_focusable. simpl.
  rewrite indexOfFrom_absent.
  - replace (-1 + 1) with (Z.of_nat 0) by done. change 0 with (Z.of_nat 0).
    rewrite !index_of_nat. by destruct (List.filter focusable (elements doc)).
  - intros y Hy Heq. apply filter_In in Hy as [Hy Hyf].
    assert (y = focused) as ->; [| congruence].
    clear Hyf Hfoc. induction (elements doc) as [|z l IH]; [done |].
    simpl in Hnd. apply NoDup_cons in Hnd as [Hfresh Hnd].
    destruct Hy as [-> | Hy], Hin as [<- | Hin]; try done.
    + exfalso. apply Hfresh. rewrite Heq. apply list_elem_of_In, in_map, Hin.
    + exfalso. apply Hfresh. rewrite <- Heq. apply list_elem_of_In, in_map, Hy.
    + by apply IH.
Qed.

(** C8, as amended: on Escape from an editor that is not suggesting,
    when the focused element is itself focusable (matched by the selector,
    tab priority not negative) the focus moves to the next focusable
    element in document order, wrapping to the first; when it is not, the
    focus moves to the first focusable element of the document, if any. *)
Theorem escape_moves_focus (this : t) (doc : Document) (cellId : string)
  (e : IKeyboardEvent) (info : IEditorInfo) (focused : HTMLElement) :
  wellFormed doc ->
  code e = "Escape" -> editorInfo e = Some info -> isSuggesting info = false ->
  activeElement doc = Some focused ->
  fst (onEditCellKeyDown this doc cellId e) = this
  /\ (focusable focused = true ->
      focusMovesToNext doc focused (snd (onEditCellKeyDown this doc cellId e)))
  /\ (focusable focused = false ->
      snd (onEditCellKeyDown this doc cellId e)
      = match head (List.filter focusable (elements doc)) with
        | Some first => [ElementFocus (node first)]
        | None => []
        end).
Proof.
  intros [Hnd Hact] Hcode Hinfo Hsug Hfocus.
  specialize (Hact _ Hfocus).
  unfold onEditCellKeyDown, editCellEscape.
  rewrite Hcode, Hfocus, Hinfo, Hsug. simpl.
  split; [by destruct (findTabStop doc 1 focused) |].
  split; intros Hfoc.
  - rewrite (findTabStop_next _ _ Hnd Hact Hfoc).
    destruct (nextFocusable doc focused) as [next |] eqn:Hnext.
    + exists next. by rewrite Hnext.
    + exfalso. unfold nextFocusable in Hnext.
      destruct (List.filter focusable (afterNode (node focused) (elements doc)));
        [| done].
      assert (In focused (List.filter focusable (elements doc))) as Hmem
        by (apply filter_In; done).
      by destruct (List.filter focusable (elements doc)).
  - rewrite (findTabStop_from_outside _ _ Hnd Hact Hfoc).
    by destruct (head (List.filter focusable (elements doc))).
Qed.

Lemma wellFormed_editorFocused : wellFormed Samples.editorFocused.
Proof.
  split.
  - compute_done.
  - intros el [= <-]. simpl. tauto.
Qed.

Lemma wellFormed_divFocused : wellFormed Samples.divFocused.
Proof.
  split.
  - compute_done.
  - intros el [= <-]. simpl. tauto.
Qed.

(** Escape in the editor's text area, between two buttons: the focus goes
    to the button after it. *)
Lemma escape_moves_focus_witness :
  focusMovesToNext Samples.editorFocused Samples.editorArea
    (snd (onEditCellKeyDown Samples.editCellInstance Samples.editorFocused "edit-cell"
            Samples.escape)).
Proof.
  apply (escape_moves_focus Samples.editCellInstance Samples.editorFocused "edit-cell"
           Samples.escape
           {| contents := "x"; isDirty := true; isSuggesting := false |}
           Samples.editorArea wellFormed_editorFocused eq_refl eq_refl eq_refl eq_refl).
  reflexivity.
Defined.

(** C8 as stated fails when the focused element is not itself focusable:
    with a [div] focused between two buttons the next focusable element
    is the button after it, and Escape focuses the button before it. *)
Lemma escape_from_div_goes_first :
  wellFormed Samples.divFocused
  /\ activeElement Samples.divFocused = Some Samples.wrapperDiv
  /\ nextFocusable Samples.divFocused Samples.wrapperDiv = Some Samples.lastButton
  /\ snd (onEditCellKeyDown Samples.editCellInstance Samples.divFocused "edit-cell"
            Samples.escape) = [ElementFocus (node Samples.firstButton)]
  /\ ~ focusMovesToNext Samples.divFocused Samples.wrapperDiv
         (snd (onEditCellKeyDown Samples.editCellInstance Samples.divFocused "edit-cell"
                 Samples.escape)).
Proof.
  split; [exact wellFormed_divFocused |].
  split; [reflexivity |]. split; [reflexivity |]. split; [reflexivity |].
  intros (next & Hnext & Hcalls).
  vm_compute in Hnext. injection Hnext as <-.
  vm_compute in Hcalls. discriminate.
Qed.

(** *** The toolbar *)

Lemma toolbarOf_render `{Identifiers} (this : t) (tb : list ImageButton) :
  toolbarOf (render this) = Some tb -> tb = renderNormalToolbar this.
Proof.
  unfold render, toolbarOf, renderNormalCell, renderControls. intros Htb.
  repeat case_match; by simplify_eq/=.
Qed.

(** C5: in every rendered toolbar the go-to-source button is visible
    exactly when the cell has a source file (a [file] that is present, not
    empty and not the empty-file sentinel), and the copy-to-source button
    is visible exactly when the go-to-source button is not. *)
Theorem source_buttons_exclusive `{Identifiers} (this : t) (tb : list ImageButton) :
  toolbarOf (render this) = Some tb ->
  exists goto copy,
    buttonOf GoToSourceCode tb = Some goto
    /\ buttonOf Copy tb = Some copy
    /\ (visible goto = true <-> hasSourceFile (getCell this))
    /\ visible copy = negb (visible goto).
Proof.
  intros Htb. apply toolbarOf_render in Htb as ->.
  unfold renderNormalToolbar, buttonOf. simpl.
  eexists _, _. split; [reflexivity |]. split; [reflexivity |].
  unfold visible, hasSourceFile. simpl. split.
  - destruct (ICell.file (getCell this)) as [file |]; simpl.
    + destruct file as [|c file]; simpl.
      * split; [discriminate |]. intros (f & [= <-] & Hne & _). congruence.
      * destruct (String.eqb_spec (String c file) EmptyFileName) as [Heq | Hne]; simpl.
        -- split; [discriminate |]. intros (f & [= <-] & _ & Hne). congruence.
        -- split; [| reflexivity]. intros _. exists (String c file).
           split; [reflexivity |]. split; [discriminate | exact Hne].
    + split; [discriminate |]. intros (f & Hf & _). congruence.
  - by rewrite negb_involutive.
Qed.

Lemma source_buttons_exclusive_witness :
  exists goto copy,
    buttonOf GoToSourceCode (renderNormalToolbar (H := Samples.sampleIdentifiers)
                               Samples.fileCellInstance) = Some goto
    /\ buttonOf Copy (renderNormalToolbar (H := Samples.sampleIdentifiers)
                        Samples.fileCellInstance) = Some copy
    /\ (visible goto = true
        <-> hasSourceFile (H := Samples.sampleIdentifiers) (getCell Samples.fileCellInstance))
    /\ visible copy = negb (visible goto).
Proof.
  apply (source_buttons_exclusive (H := Samples.sampleIdentifiers) Samples.fileCellInstance).
  reflexivity.
Defined.

Example file_cell_shows_goto :
  List.map (fun b => (image b, hidden b))
    (renderNormalToolbar (H := Samples.sampleIdentifiers) Samples.fileCellInstance)
  = [(GatherCode, true); (GoToSourceCode, false); (Copy, true); (Cancel, false)].
Proof. reflexivity. Qed.

(** *** The update check *)

(** C3: when the comparison answers [true] on deeply equal props, an
    update with props deeply equal to the ones last rendered is skipped:
    [shouldComponentUpdate] returns [false] and the update makes no call,
    so the body of [render] does not run. *)
Theorem deep_equal_props_skip_render
  (fastDeepEqual : IInteractiveCellBaseProps -> IInteractiveCellBaseProps -> bool)
  (deeplyEqual : IInteractiveCellBaseProps -> IInteractiveCellBaseProps -> Prop)
  (this : t) (P2 : IInteractiveCellBaseProps) :
  (forall p q, deeplyEqual p q -> fastDeepEqual p q = true) ->
  deeplyEqual (props this) P2 ->
  shouldComponentUpdate fastDeepEqual this P2 = false
  /\ receiveProps fastDeepEqual this P2 = (with_props this P2, [])
  /\ ~ In Render (snd (receiveProps fastDeepEqual this P2)).
Proof.
  intros Hcomplete Heq.
  assert (shouldComponentUpdate fastDeepEqual this P2 = false) as Hskip.
  { unfold shouldComponentUpdate. by rewrite (Hcomplete _ _ Heq). }
  unfold receiveProps. rewrite Hskip. simpl. tauto.
Qed.

Lemma deep_equal_props_skip_render_witness :
  shouldComponentUpdate Samples.structuralEqual Samples.fileCellInstance
    (Samples.propsOf (Samples.codeCell "cell-1" (Some "notebook.py"))) = false
  /\ receiveProps Samples.structuralEqual Samples.fileCellInstance
       (Samples.propsOf (Samples.codeCell "cell-1" (Some "notebook.py")))
     = (with_props Samples.fileCellInstance
          (Samples.propsOf (Samples.codeCell "cell-1" (Some "notebook.py"))), [])
  /\ ~ In Render (snd (receiveProps Samples.structuralEqual Samples.fileCellInstance
                         (Samples.propsOf (Samples.codeCell "cell-1" (Some "notebook.py"))))).
Proof.
  apply (deep_equal_props_skip_render Samples.structuralEqual eq).
  - intros p q ->. unfold Samples.structuralEqual. by apply bool_decide_eq_true.
  - reflexivity.
Defined.

(** Props that differ are rendered again. *)
Example changed_props_render :
  snd (receiveProps Samples.structuralEqual Samples.fileCellInstance
         (Samples.propsOf (Samples.codeCell "cell-1" None))) = [Render].
Proof. vm_compute. reflexivity. Qed.

(** *** The input history over an instance's life *)

Lemma historiesCreated_app (calls calls' : list Call) :
  historiesCreated (calls ++ calls') = (historiesCreated calls + historiesCreated calls')%nat.
Proof. unfold historiesCreated. by rewrite List.filter_app, length_app. Qed.

Lemma giveFocus_creates_none (this : t) (giveCodeFocus : bool) :
  historiesCreated (giveFocus this giveCodeFocus) = 0%nat.
Proof. unfold giveFocus. by repeat case_match. Qed.

(** No event creates a history, gives one to an instance without, or
    takes one away. *)
Lemma step_keeps_history `{Identifiers}
  (fastDeepEqual : IInteractiveCellBaseProps -> IInteractiveCellBaseProps -> bool)
  (this : t) (ev : LifecycleEvent) :
  (is_Some (inputHistory (fst (step fastDeepEqual this ev))) <-> is_Some (inputHistory this))
  /\ historiesCreated (snd (step fastDeepEqual this ev)) = 0%nat.
Proof.
  assert (forall doc cellId e,
             (is_Some (inputHistory (fst (onEditCellKeyDown this doc cellId e)))
              <-> is_Some (inputHistory this))
             /\ historiesCreated (snd (onEditCellKeyDown this doc cellId e)) = 0%nat) as Hkey.
  { intros doc cellId e.
    unfold onEditCellKeyDown, editCellEscape, editCellSubmit.
    repeat case_match; simpl; split; try done.
    all: match goal with E : inputHistory _ = _ |- _ => rewrite E end; try done.
    all: split; intros _; by eexists. }
  destruct ev; simpl; try done.
  - unfold receiveProps. case_match; simpl; [| done].
    split; [done |]. unfold componentDidUpdate.
    case_match; [apply giveFocus_creates_none | done].
  - unfold onKeyDown. case_match; [apply Hkey | done].
  - split; [done | apply giveFocus_creates_none].
Qed.

Lemma step_keeps_identity `{Identifiers}
  (fastDeepEqual : IInteractiveCellBaseProps -> IInteractiveCellBaseProps -> bool)
  (this : t) (ev : LifecycleEvent) (id : string) :
  keepsIdentity id ev -> ICell.id (getCell this) = id ->
  ICell.id (getCell (fst (step fastDeepEqual this ev))) = id.
Proof.
  intros Hkeep Hid. destruct ev; simpl in *; try done.
  - unfold receiveProps. by case_match.
  - unfold onKeyDown, onEditCellKeyDown, editCellEscape, editCellSubmit.
    by repeat case_match.
  - unfold onEditCellKeyDown, editCellEscape, editCellSubmit.
    by repeat case_match.
Qed.

Lemma run_keeps_history `{Identifiers}
  (fastDeepEqual : IInteractiveCellBaseProps -> IInteractiveCellBaseProps -> bool)
  (evs : list LifecycleEvent) (this : t) :
  (is_Some (inputHistory (fst (run fastDeepEqual this evs))) <-> is_Some (inputHistory this))
  /\ historiesCreated (snd (run fastDeepEqual this evs)) = 0%nat.
Proof.
  revert this. induction evs as [|ev evs IH]; intros this; simpl; [done |].
  destruct (step_keeps_history fastDeepEqual this ev) as [Hsome Hnone].
  destruct (step fastDeepEqual this ev) as [this' calls]. simpl in *.
  destruct (IH this') as [Hsome' Hnone'].
  destruct (run fastDeepEqual this' evs) as [this'' calls']. simpl in *.
  split; [by rewrite Hsome', Hsome |].
  by rewrite historiesCreated_app, Hnone, Hnone'.
Qed.

Lemma run_keeps_identity `{Identifiers}
  (fastDeepEqual : IInteractiveCellBaseProps -> IInteractiveCellBaseProps -> bool)
  (evs : list LifecycleEvent) (this : t) (id : string) :
  Forall (keepsIdentity id) evs -> ICell.id (getCell this) = id ->
  ICell.id (getCell (fst (run fastDeepEqual this evs))) = id.
Proof.
  revert this. induction evs as [|ev evs IH]; intros this Hall Hid; simpl; [done |].
  apply Forall_cons in Hall as [Hev Hall].
  pose proof (step_keeps_identity fastDeepEqual this ev id Hev Hid) as Hstep.
  destruct (step fastDeepEqual this ev) as [this' calls]. simpl in *.
  specialize (IH this' Hall Hstep).
  by destruct (run fastDeepEqual this' evs) as [this'' calls'].
Qed.

(** C9: at every point of an instance's life (its construction with
    [prop], then any events [evs]) the instance owns an [InputHistory]
    exactly when it was constructed for the edit-cell sentinel; one
    history is created over that life when it was, none when it was not,
    and the constructor is what creates it; and as long as prop updates
    keep the cell identity, owning a history is the same as the current
    cell identity being the sentinel. *)
Theorem inputHistory_only_for_edit_cell `{Identifiers}
  (fastDeepEqual : IInteractiveCellBaseProps -> IInteractiveCellBaseProps -> bool)
  (prop : IInteractiveCellBaseProps) (evs : list LifecycleEvent) :
  let id := ICell.id (ICellViewModel.cell (cellVM prop)) in
  let now := lifetime fastDeepEqual prop evs in
  (is_Some (inputHistory (fst now)) <-> id = EditCellId)
  /\ historiesCreated (snd now) = (if decide (id = EditCellId) then 1 else 0)%nat
  /\ historiesCreated (snd (constructor prop)) = historiesCreated (snd now)
  /\ (Forall (keepsIdentity id) evs ->
      (is_Some (inputHistory (fst now)) <-> ICell.id (getCell (fst now)) = EditCellId)).
Proof.
  intros id now. subst now. unfold lifetime.
  assert (let '(this, calls) := constructor prop in
          props this = prop
          /\ (is_Some (inputHistory this) <-> id = EditCellId)
          /\ historiesCreated calls = (if decide (id = EditCellId) then 1 else 0)%nat)
    as Hnew.
  { unfold constructor. fold id.
    destruct (String.eqb_spec id EditCellId) as [Heq | Hne]; simpl.
    - rewrite decide_True by done. split; [done |]. split; [| done].
      split; [done | by eexists].
    - rewrite decide_False by done. split; [done |]. split; [| done].
      split; [by intros [? ?] | done]. }
  destruct (constructor prop) as [this calls].
  destruct Hnew as (Hprops & Hsome & Hcount).
  destruct (run_keeps_history fastDeepEqual evs this) as [Hsome' Hnone'].
  pose proof (fun Hall => run_keeps_identity fastDeepEqual evs this id Hall) as Hid.
  destruct (run fastDeepEqual this evs) as [this' calls']. simpl in *.
  split; [by rewrite Hsome', Hsome |].
  rewrite historiesCreated_app, Hnone', Nat.add_0_r.
  split; [done |]. split; [done |].
  intros Hall. rewrite Hsome', Hsome, Hid; [done | done |].
  unfold getCell. by rewrite Hprops.
Qed.

(** The edit cell after a prop update, a submit and a click still owns
    the history it was constructed with. *)
Lemma inputHistory_only_for_edit_cell_witness :
  let now :=
    lifetime (H := Samples.sampleIdentifiers) Samples.structuralEqual
      (Samples.propsOf (Samples.codeCell "edit-cell" None))
      [PropsChange (Samples.propsOf (Samples.codeCell "edit-cell" None));
       EditorKeyDown Samples.editorFocused "edit-cell" (Samples.shiftEnter Samples.abBlank true);
       MouseClick] in
  (is_Some (inputHistory (fst now)) <-> "edit-cell" = "edit-cell")
  /\ historiesCreated (snd now) = 1%nat
  /\ historiesCreated
       (snd (constructor (H := Samples.sampleIdentifiers)
               (Samples.propsOf (Samples.codeCell "edit-cell" None))))
     = historiesCreated (snd now)
  /\ (Forall (keepsIdentity "edit-cell")
        [PropsChange (Samples.propsOf (Samples.codeCell "edit-cell" None));
         EditorKeyDown Samples.editorFocused "edit-cell"
           (Samples.shiftEnter Samples.abBlank true);
         MouseClick] ->
      (is_Some (inputHistory (fst now)) <-> ICell.id (getCell (fst now)) = "edit-cell")).
Proof.
  exact (inputHistory_only_for_edit_cell (H := Samples.sampleIdentifiers)
           Samples.structuralEqual
           (Samples.propsOf (Samples.codeCell "edit-cell" None))
           [PropsChange (Samples.propsOf (Samples.codeCell "edit-cell" None));
            EditorKeyDown Samples.editorFocused "edit-cell"
              (Samples.shiftEnter Samples.abBlank true);
            MouseClick]).
Defined.

Example edit_cell_history_after_submit :
  inputHistory
    (fst (lifetime (H := Samples.sampleIdentifiers) Samples.structuralEqual
            (Samples.propsOf (Samples.codeCell "edit-cell" None))
            [EditorKeyDown Samples.editorFocused "edit-cell"
               (Samples.shiftEnter Samples.abBlank true)]))
  = Some {| InputHistory.entries := [(Samples.ab, true)] |}.
Proof. vm_compute. reflexivity. Qed.

Example ordinary_cell_has_no_history :
  inputHistory
    (fst (lifetime (H := Samples.sampleIdentifiers) Samples.structuralEqual
            (Samples.propsOf (Samples.codeCell "cell-1" (Some "notebook.py")))
            [EditorKeyDown Samples.editorFocused "cell-1"
               (Samples.shiftEnter Samples.abBlank true)]))
  = None.
Proof. vm_compute. reflexivity. Qed.

End InteractiveCellFacts.


(** ** Facts about the notebook surface *)
Module NativeEditorFacts.
Import NativeEditor NativeEditorSpec.
Local Open Scope list_scope.
Local Arguments String.eqb : simpl never.

(** *** The save shortcut *)



Example ctrl_s_throws :
  mainKeyDown Linux {| key := "s"; ctrlKey := true; metaKey := false;
                       shiftKey := false; altKey := false |} = Threw [].
Proof. reflexivity. Qed.

(** *** The cell selection protocol *)



Example selecting_rendered_cell_throws :
  selectCell Samples.scrolledEditor "c2" true Current = Threw [].
Proof. vm_compute. reflexivity. Qed.

(** *** The ref maps *)

(** Every reachable editor has a cell ref exactly where it has a
    container ref. *)
Lemma reachable_refsPaired (this : t) : reachable this -> refsPaired this.
Proof.
  unfold refsPaired. induction 1 as [vms total | this cellVM _ IH | this id c k _ IH
                                     | this vms total' newCell panel _ IH]; simpl.
  - by rewrite !dom_empty_L.
  - by rewrite !dom_insert_L, IH.
  - by rewrite !dom_alter_L.
  - exact IH.
Qed.

Lemma measured_container (this : t) (cellVM : ICellViewModel.t) (el : Container.t) :
  measured this cellVM = Some el ->
  ICellViewModel.useQuickEdit cellVM = true /\ containerOf this cellVM = Some el.
Proof.
  unfold measured, containerOf. intros Hm.
  destruct (ICellViewModel.useQuickEdit cellVM); simpl in Hm; [| done].
  case_bool_decide; [| done]. split; [done |].
  by repeat case_match.
Qed.


(** *** The loop and its recursion on the remaining cells *)

Lemma scanList_length (this : t) (vt vb : Z) (l : list ICellViewModel.t) :
  length (fst (scanList this vt vb l)) = length l.
Proof.
  induction l as [|c l IH]; simpl; [done |].
  destruct (stopsAt this vb c); [done |].
  destruct (scanList this vt vb l) as [rest changed]. simpl in IH.
  destruct (promotes this vt vb c); simpl; by rewrite IH.
Qed.

(** The loop from index [i], with one unit of fuel per remaining cell,
    leaves the first [i] cells and scans the others. *)
Lemma scanFrom_scanList (this : t) (vt vb : Z) (fuel i : nat)
  (l : list ICellViewModel.t) (mc : bool) :
  length l = (i + fuel)%nat ->
  scanFrom this vt vb fuel i l mc
  = (take i l ++ fst (scanList this vt vb (drop i l)),
     mc || snd (scanList this vt vb (drop i l))).
Proof.
  revert i l mc. induction fuel as [|fuel IH]; intros i l mc Hlen.
  { simpl. rewrite drop_ge by lia. simpl.
    by rewrite take_ge, app_nil_r, orb_false_r by lia. }
  assert (is_Some (l !! i)) as [c Hc] by (apply lookup_lt_is_Some; lia).
  rewrite (drop_S _ _ _ Hc). simpl. rewrite Hc.
  assert (forall l' mc', length l' = length l -> drop (S i) l' = drop (S i) l ->
            take (S i) l' = take i l ++ [hd c (drop i l')] ->
            scanFrom this vt vb fuel (S i) l' mc'
            = (take i l ++ hd c (drop i l') :: fst (scanList this vt vb (drop (S i) l)),
               mc' || snd (scanList this vt vb (drop (S i) l)))) as Hnext.
  { intros l' mc' Hlen' Hdrop Htake.
    rewrite IH by lia. rewrite Hdrop, Htake. by rewrite <- app_assoc. }
  assert (scanFrom this vt vb fuel (S i) l mc
          = (take i l ++ c :: fst (scanList this vt vb (drop (S i) l)),
             mc || snd (scanList this vt vb (drop (S i) l)))) as Hskip.
  { rewrite (Hnext l mc eq_refl eq_refl); rewrite (drop_S _ _ _ Hc); [done |].
    by apply take_S_r. }
  unfold stopsAt, promotes, measured, bottomOf.
  destruct (ICellViewModel.useQuickEdit c
            && bool_decide (is_Some (cellRefs this !! ICell.id (ICellViewModel.cell c))));
    [| rewrite Hskip; by destruct (scanList this vt vb (drop (S i) l))].
  destruct (cellContainerRefs this !! ICell.id (ICellViewModel.cell c)) as [[el |] |];
    [| rewrite Hskip; by destruct (scanList this vt vb (drop (S i) l)) ..].
  destruct (Container.offsetTop el >? vb); simpl.
  { by rewrite (take_drop_middle _ _ _ Hc), orb_false_r. }
  destruct (Container.offsetTop el + Container.offsetHeight el <? vt); simpl.
  { rewrite Hskip. by destruct (scanList this vt vb (drop (S i) l)). }
  rewrite (Hnext (<[i := ICellViewModel.with_useQuickEdit c false]> l) true).
  - assert (drop i (<[i := ICellViewModel.with_useQuickEdit c false]> l)
            = ICellViewModel.with_useQuickEdit c false :: drop (S i) l) as ->.
    { rewrite (drop_S _ (ICellViewModel.with_useQuickEdit c false)).
      - by rewrite drop_insert_lt by lia.
      - apply list_lookup_insert_eq. lia. }
    simpl. destruct (scanList this vt vb (drop (S i) l)). simpl.
    by rewrite orb_true_r.
  - apply length_insert.
  - apply drop_insert_lt. lia.
  - rewrite (take_S_r _ _ (ICellViewModel.with_useQuickEdit c false)).
    + rewrite take_insert_ge by lia. f_equal.
      rewrite (drop_S _ (ICellViewModel.with_useQuickEdit c false)); [done |].
      apply list_lookup_insert_eq. lia.
    + apply list_lookup_insert_eq. lia.
Qed.

(** What the scan leaves at each position: the cell promoted when the
    scan gets there and the cell qualifies, the cell as it was otherwise. *)
Lemma scanList_lookup (this : t) (vt vb : Z) (l : list ICellViewModel.t) (i : nat)
  (c : ICellViewModel.t) :
  l !! i = Some c ->
  fst (scanList this vt vb l) !! i
  = Some (if reachedb this vb l i && promotes this vt vb c
          then ICellViewModel.with_useQuickEdit c false else c).
Proof.
  unfold reachedb. revert i. induction l as [|x l IH]; intros i Hi; [done |].
  simpl. destruct (stopsAt this vb x) eqn:Hstop.
  - simpl. rewrite Hi. f_equal. destruct i as [|i]; simpl.
    + injection Hi as ->. unfold promotes. unfold stopsAt in Hstop.
      destruct (measured this c); [| done]. by rewrite Hstop.
    + by rewrite Hstop.
  - destruct (scanList this vt vb l) as [rest changed] eqn:Hscan. simpl in IH.
    destruct i as [|i]; simpl.
    + injection Hi as ->. by destruct (promotes this vt vb c).
    + rewrite Hstop. simpl.
      destruct (promotes this vt vb x); simpl; by apply IH.
Qed.

(** The scan reports a change exactly when it promotes some cell. *)
Lemma scanList_changed (this : t) (vt vb : Z) (l : list ICellViewModel.t) :
  snd (scanList this vt vb l) = true
  <-> exists i c, l !! i = Some c
                  /\ reachedb this vb l i = true /\ promotes this vt vb c = true.
Proof.
  unfold reachedb. induction l as [|x l IH]; simpl.
  { split; [done | by intros (i & c & Hi & _)]. }
  destruct (stopsAt this vb x) eqn:Hstop; simpl.
  - split; [done |]. intros (i & c & Hi & Hreach & Hprom).
    destruct i as [|i]; simpl in *.
    + injection Hi as ->. unfold promotes in Hprom. unfold stopsAt in Hstop.
      destruct (measured this c); [| done]. by rewrite Hstop in Hprom.
    + by rewrite Hstop in Hreach.
  - destruct (scanList this vt vb l) as [rest changed]. simpl in IH.
    destruct (promotes this vt vb x) eqn:Hprom; simpl.
    + split; [| done]. intros _. by exists 0%nat, x.
    + rewrite IH. split.
      * intros (i & c & Hi & Hreach & Hp). exists (S i), c. simpl. by rewrite Hstop.
      * intros (i & c & Hi & Hreach & Hp). destruct i as [|i]; simpl in *.
        -- injection Hi as ->. congruence.
        -- rewrite Hstop in Hreach. by exists i, c.
Qed.

(** [updateVisibleCells] in terms of the scan of the whole list. *)
Lemma updateVisibleCells_scan (this : t) (panel : ScrollPanel.t) :
  contentPanelScrollRef this = Some panel ->
  size (cellContainerRefs this) <> 0%nat ->
  updateVisibleCells this
  = if snd (scanList this (visibleTopOf panel) (visibleBottomOf panel) (cellVMs this))
    then [SetState (fst (scanList this (visibleTopOf panel) (visibleBottomOf panel)
                           (cellVMs this)))]
    else [].
Proof.
  intros Hpanel Hsize. unfold updateVisibleCells. rewrite Hpanel.
  destruct (Nat.eqb_spec (size (cellContainerRefs this)) 0) as [? | _]; [done |].
  simpl. rewrite scanFrom_scanList by done. by rewrite drop_0.
Qed.

Lemma updateVisibleCells_idle (this : t) :
  contentPanelScrollRef this = None \/ size (cellContainerRefs this) = 0%nat ->
  updateVisibleCells this = [].
Proof.
  unfold updateVisibleCells. intros [-> | ->]; [done |]. by destruct (contentPanelScrollRef this).
Qed.


(** *** The scan's tests, in terms of the band *)




Lemma promotes_intersects (this : t) (vt vb : Z) (cellVM : ICellViewModel.t) :
  promotes this vt vb cellVM = true ->
  ICellViewModel.useQuickEdit cellVM = true
  /\ exists el, containerOf this cellVM = Some el /\ intersects vt vb el.
Proof.
  unfold promotes. intros Hp.
  destruct (measured this cellVM) as [el |] eqn:Hm; [| done].
  apply measured_container in Hm as [Hquick Hcont].
  split; [done |]. exists el. split; [done |]. unfold intersects.
  destruct (Z.gtb_spec (Container.offsetTop el) vb); [done |].
  destruct (Z.ltb_spec (bottomOf el) vt); [done | lia].
Qed.









(** The same list with the first cell below the band: the scan breaks on
    it and the second cell, although in the band, stays in quick-edit. *)
Example scan_breaks_below_band :
  updateVisibleCells
    {| cellVMs := [Samples.c1; Samples.c2];
       loadTotal := None; newCellId := None;
       contentPanelScrollRef :=
         Some {| ScrollPanel.offsetTop := 0; ScrollPanel.scrollTop := 100;
                 ScrollPanel.clientHeight := 200 |};
       cellRefs := {[ "c1" := None; "c2" := None ]};
       cellContainerRefs :=
         {[ "c1" := Some {| Container.offsetTop := 400; Container.offsetHeight := 80 |};
            "c2" := Some {| Container.offsetTop := 150; Container.offsetHeight := 50 |} ]};
       initialVisibilityUpdate := true |}
  = [].
Proof. vm_compute. reflexivity. Qed.

(** *** What a state update of the scan changes *)

Lemma scanList_cells (this : t) (vt vb : Z) (l : list ICellViewModel.t) :
  List.map ICellViewModel.cell (fst (scanList this vt vb l))
  = List.map ICellViewModel.cell l.
Proof.
  induction l as [|c l IH]; simpl; [done |].
  destruct (stopsAt this vb c); [done |].
  destruct (scanList this vt vb l) as [rest changed]. simpl in IH.
  destruct (promotes this vt vb c); simpl; by rewrite IH.
Qed.

Lemma sameButQuickEdit_promoted (cellVM : ICellViewModel.t) (v : bool) :
  sameButQuickEdit cellVM (ICellViewModel.with_useQuickEdit cellVM v).
Proof. by repeat split. Qed.

Lemma sameButQuickEdit_refl (cellVM : ICellViewModel.t) : sameButQuickEdit cellVM cellVM.
Proof. by repeat split. Qed.

(** C10: a state update issued by the scan carries the cell list with
    the same length and the same cells in the same order; each view model
    in it is the one before, or the one before with its quick-edit flag
    turned from set to cleared and every other field as it was, and at
    least one is of the second kind; and when no cell's container meets
    the visible band the scan issues no update. *)
Theorem visibility_scan_frame (this : t) :
  (forall cellVMs',
      In (SetState cellVMs') (updateVisibleCells this) ->
      length cellVMs' = length (cellVMs this)
      /\ List.map ICellViewModel.cell cellVMs' = List.map ICellViewModel.cell (cellVMs this)
      /\ (forall i cellVM,
            cellVMs this !! i = Some cellVM ->
            exists cellVM',
              cellVMs' !! i = Some cellVM'
              /\ sameButQuickEdit cellVM cellVM'
              /\ (cellVM' = cellVM
                  \/ (ICellViewModel.useQuickEdit cellVM = true
                      /\ cellVM' = ICellViewModel.with_useQuickEdit cellVM false)))
      /\ (exists i cellVM,
            cellVMs this !! i = Some cellVM
            /\ ICellViewModel.useQuickEdit cellVM = true
            /\ cellVMs' !! i = Some (ICellViewModel.with_useQuickEdit cellVM false)))
  /\ ((forall panel cellVM el,
          contentPanelScrollRef this = Some panel ->
          In cellVM (cellVMs this) ->
          containerOf this cellVM = Some el ->
          ~ intersects (visibleTopOf panel) (visibleBottomOf panel) el) ->
      updateVisibleCells this = []).
Proof.
  destruct (contentPanelScrollRef this) as [panel |] eqn:Hpanel;
    [| rewrite updateVisibleCells_idle by (by left); split; [by intros ? [] | done]].
  destruct (decide (size (cellContainerRefs this) = 0%nat)) as [Hsize | Hsize];
    [rewrite updateVisibleCells_idle by (by right); split; [by intros ? [] | done] |].
  rewrite (updateVisibleCells_scan _ _ Hpanel Hsize).
  set (vt := visibleTopOf panel). set (vb := visibleBottomOf panel).
  split.
  - intros cellVMs' Hin.
    destruct (snd (scanList this vt vb (cellVMs this))) eqn:Hchanged; [| done].
    destruct Hin as [[= <-] | []].
    split; [apply scanList_length |]. split; [apply scanList_cells |]. split.
    + intros i cellVM Hi. rewrite (scanList_lookup _ _ _ _ _ _ Hi).
      eexists. split; [reflexivity |].
      destruct (reachedb this vb (cellVMs this) i); simpl;
        [| split; [apply sameButQuickEdit_refl | by left]].
      destruct (promotes this vt vb cellVM) eqn:Hprom;
        [| split; [apply sameButQuickEdit_refl | by left]].
      split; [apply sameButQuickEdit_promoted |]. right.
      by apply promotes_intersects in Hprom as [? _].
    + apply scanList_changed in Hchanged as (i & cellVM & Hi & Hreach & Hprom).
      exists i, cellVM. split; [done |].
      split; [by apply promotes_intersects in Hprom as [? _] |].
      by rewrite (scanList_lookup _ _ _ _ _ _ Hi), Hreach, Hprom.
  - intros Hnone.
    destruct (snd (scanList this vt vb (cellVMs this))) eqn:Hchanged; [| done].
    apply scanList_changed in Hchanged as (i & cellVM & Hi & _ & Hprom).
    apply promotes_intersects in Hprom as (_ & el & Hcont & Hmeet).
    exfalso. apply (Hnone panel cellVM el eq_refl); [| done ..].
    apply list_elem_of_In, list_elem_of_lookup. by exists i.
Qed.

(** The update of the scrolled editor keeps both cells in place and
    differs from the list before in the second cell's flag only. *)
Lemma visibility_scan_frame_witness :
  length [Samples.c1; ICellViewModel.with_useQuickEdit Samples.c2 false]
  = length (cellVMs Samples.scrolledEditor)
  /\ List.map ICellViewModel.cell
       [Samples.c1; ICellViewModel.with_useQuickEdit Samples.c2 false]
     = List.map ICellViewModel.cell (cellVMs Samples.scrolledEditor).
Proof.
  destruct (proj1 (visibility_scan_frame Samples.scrolledEditor)
              [Samples.c1; ICellViewModel.with_useQuickEdit Samples.c2 false])
    as (Hlength & Hcells & _).
  - left. vm_compute. reflexivity.
  - split; [exact Hlength | exact Hcells].
Defined.

End NativeEditorFacts.


(** ** Further facts about the cell view *)
Module InteractiveCellMore.
Import InteractiveCell InteractiveCellSpec InteractiveCellFacts.
Local Open Scope list_scope.
Local Arguments String.eqb : simpl never.

(** *** Trimming *)

Lemma list_ascii_of_string_inj (s1 s2 : string) :
  list_ascii_of_string s1 = list_ascii_of_string s2 -> s1 = s2.
Proof.
  intros Heq. rewrite <- (string_of_list_ascii_of_string s1), Heq.
  apply string_of_list_ascii_of_string.
Qed.

Lemma newlines_units (k : nat) : list_ascii_of_string (newlines k) = replicate k Js.LF.
Proof. apply list_ascii_of_string_of_list_ascii. Qed.

Lemma append_units (s : string) (k : nat) :
  list_ascii_of_string (String.append s (newlines k))
  = list_ascii_of_string s ++ replicate k Js.LF.
Proof. by rewrite list_ascii_of_string_app, newlines_units. Qed.

Lemma ends_with_newline (c : string) (l : list ascii) :
  list_ascii_of_string c = l ++ [Js.LF] ->
  c = String.append (string_of_list_ascii l) Js.nl.
Proof.
  intros Hc. apply list_ascii_of_string_inj.
  by rewrite Hc, list_ascii_of_string_app, list_ascii_of_string_of_list_ascii.
Qed.

Lemma app_replicate_le (l l' : list ascii) (k k' : nat) (x : ascii) :
  l ++ replicate k x = l' ++ replicate k' x -> (k <= k')%nat ->
  l = l' ++ replicate (k' - k) x.
Proof.
  intros Heq Hle.
  replace k' with ((k' - k) + k)%nat in Heq by lia.
  rewrite replicate_add, app_assoc in Heq.
  replace (k' - k + k - k)%nat with (k' - k)%nat by lia.
  by apply app_inv_tail in Heq.
Qed.

Lemma trimsTo_longer (contents c c' : string) (k k' : nat) :
  contents = String.append c (newlines k) ->
  contents = String.append c' (newlines k') ->
  (forall s, c <> String.append s Js.nl) ->
  (k <= k')%nat -> c = c'.
Proof.
  intros Hc Hc' Hend Hle.
  assert (list_ascii_of_string c ++ replicate k Js.LF
          = list_ascii_of_string c' ++ replicate k' Js.LF) as Heq
    by (rewrite <- !append_units; congruence).
  apply app_replicate_le in Heq; [| done].
  destruct (k' - k)%nat as [|m].
  - apply list_ascii_of_string_inj. by rewrite Heq, app_nil_r.
  - exfalso. rewrite replicate_S_end, app_assoc in Heq.
    exact (Hend _ (ends_with_newline _ _ Heq)).
Qed.

(** Only one string is [contents] with its blank lines taken off. *)
Lemma trimsTo_unique (contents c c' : string) :
  trimsTo contents c -> trimsTo contents c' -> c = c'.
Proof.
  intros [[k Hk] Hend] [[k' Hk'] Hend'].
  destruct (Nat.le_ge_cases k k').
  - by apply (trimsTo_longer contents c c' k k').
  - symmetry. by apply (trimsTo_longer contents c' c k' k).
Qed.

Lemma trimsTo_self (c : string) :
  (forall s, c <> String.append s Js.nl) -> trimsTo c c.
Proof.
  intros Hend. split; [| done]. exists 0%nat.
  apply list_ascii_of_string_inj. by rewrite append_units, app_nil_r.
Qed.

(** X1: the content [editCellSubmit] keeps is characterised by what it
    is for: it is the one string that gives back the editor's contents
    when line feeds are appended and that does not itself end in a line
    feed. *)
Theorem trim_characterised (contents content : string) :
  trimsTo contents content <-> content = trimTrailingNewlines contents.
Proof.
  split.
  - intros Htrim. exact (trimsTo_unique _ _ _ Htrim (trimTrailingNewlines_trims contents)).
  - intros ->. apply trimTrailingNewlines_trims.
Qed.

(** X2: trimming twice is trimming once; line feeds added at the end
    change nothing; contents that do not end in a line feed are kept as
    they are; and the result is never longer than the contents. *)
Theorem trim_laws (contents : string) :
  trimTrailingNewlines (trimTrailingNewlines contents) = trimTrailingNewlines contents
  /\ (forall k, trimTrailingNewlines (String.append contents (newlines k))
                = trimTrailingNewlines contents)
  /\ ((forall s, contents <> String.append s Js.nl) ->
      trimTrailingNewlines contents = contents)
  /\ (String.length (trimTrailingNewlines contents) <= String.length contents)%nat.
Proof.
  destruct (trimTrailingNewlines_trims contents) as [[j Hj] Hend].
  assert (forall s, String.length s = length (list_ascii_of_string s)) as Hlen.
  { intros s. induction s as [|c s IH]; simpl; [done | by rewrite IH]. }
  split; [| split; [| split]].
  - symmetry. eapply trimsTo_unique; [| apply trimTrailingNewlines_trims].
    by apply trimsTo_self.
  - intros k. symmetry.
    eapply trimsTo_unique; [| apply trimTrailingNewlines_trims].
    split; [| done]. exists (j + k)%nat.
    apply list_ascii_of_string_inj.
    rewrite !append_units, replicate_add, app_assoc. f_equal.
    rewrite <- append_units. by rewrite <- Hj.
  - intros Hnone. symmetry.
    eapply trimsTo_unique; [| apply trimTrailingNewlines_trims].
    by apply trimsTo_self.
  - rewrite Hj at 2. rewrite !Hlen, append_units, length_app. lia.
Qed.

(** X3: contents made of line feeds only pass the guard (they are not
    the empty string) and are submitted as the empty string: the editor
    is cleared, [submitInput] is dispatched with [""], and the history
    the cell owns (if any) receives [""]. *)
Theorem submit_of_blank_lines (this : t) (e : IKeyboardEvent) (info : IEditorInfo)
  (k : nat) :
  editorInfo e = Some info -> contents info = newlines (S k) ->
  editCellSubmit this e =
    (match inputHistory this with
     | Some h => with_inputHistory this (Some (InputHistory.add "" (isDirty info) h))
     | None => this
     end,
     [StopPropagation; PreventDefault; EditorClear;
      Dispatch (submitInput "" (ICell.id (getCell this)))]).
Proof.
  intros Hinfo Hcontents.
  rewrite (editCellSubmit_content _ _ _ Hinfo) by (by rewrite Hcontents).
  cbv zeta.
  assert (trimTrailingNewlines (contents info) = "") as ->; [| done].
  symmetry. eapply trimsTo_unique; [| apply trimTrailingNewlines_trims].
  split.
  - exists (S k). by rewrite Hcontents.
  - intros s Hs. apply (f_equal list_ascii_of_string) in Hs.
    rewrite list_ascii_of_string_app in Hs. simpl in Hs.
    by destruct (list_ascii_of_string s).
Qed.

Lemma submit_of_blank_lines_witness :
  editCellSubmit Samples.editCellInstance (Samples.shiftEnter (newlines 2) true)
  = (with_inputHistory Samples.editCellInstance
       (Some (InputHistory.add "" true InputHistory.new)),
     [StopPropagation; PreventDefault; EditorClear;
      Dispatch (submitInput "" "edit-cell")]).
Proof.
  exact (submit_of_blank_lines Samples.editCellInstance
           (Samples.shiftEnter (newlines 2) true)
           {| contents := newlines 2; isDirty := true; isSuggesting := false |}
           1%nat eq_refl eq_refl).
Defined.

(** *** Tab stops *)

Lemma index_In {A} (l : list A) (i : Z) (x : A) : Js.index l i = Some x -> In x l.
Proof.
  unfold Js.index. destruct (i <? 0); [done |].
  intros Hx. apply list_elem_of_In, list_elem_of_lookup. by eexists.
Qed.

Lemma orElse_index_In {A} (l : list A) (i : Z) (x : A) :
  Js.orElse (Js.index l i) (Js.index l 0) = Some x -> In x l.
Proof.
  destruct (Js.index l i) eqn:Hi; simpl.
  - intros [= <-]. by apply index_In in Hi.
  - apply index_In.
Qed.

Lemma orElse_index_None {A} (l : list A) (i : Z) :
  Js.orElse (Js.index l i) (Js.index l 0) = None <-> l = [].
Proof.
  split.
  - destruct (Js.index l i); [done |]. simpl. by destruct l.
  - intros ->. unfold Js.index. destruct (i <? 0); [done |]. by destruct (Z.to_nat i).
Qed.

Lemma findTabStop_candidates (doc : Document) (direction : Z) (element : HTMLElement) :
  exists i : Z,
    findTabStop doc direction element
    = Js.orElse (Js.index (List.filter focusable (elements doc)) i)
                (Js.index (List.filter focusable (elements doc)) 0).
Proof.
  unfold findTabStop. rewrite tabable_focusable. cbv zeta.
  destruct (direction >=? 0); eauto.
Qed.

Lemma no_candidates (doc : Document) :
  List.filter focusable (elements doc) = []
  <-> forall el, In el (elements doc) -> focusable el = false.
Proof.
  split.
  - intros Hnil el Hel. destruct (focusable el) eqn:Hf; [| done].
    assert (In el (List.filter focusable (elements doc))) as Hin
      by (by apply filter_In).
    by rewrite Hnil in Hin.
  - intros Hnone. destruct (List.filter focusable (elements doc)) as [|x l] eqn:Hl; [done |].
    assert (In x (List.filter focusable (elements doc))) as Hin by (rewrite Hl; by left).
    apply filter_In in Hin as [Hin Hf]. by rewrite (Hnone x Hin) in Hf.
Qed.

Lemma findTabStop_none (doc : Document) (direction : Z) (element : HTMLElement) :
  findTabStop doc direction element = None
  <-> forall el, In el (elements doc) -> focusable el = false.
Proof.
  destruct (findTabStop_candidates doc direction element) as [i ->].
  rewrite orElse_index_None. apply no_candidates.
Qed.

Lemma findTabStop_some (doc : Document) (direction : Z) (element r : HTMLElement) :
  findTabStop doc direction element = Some r ->
  In r (elements doc) /\ focusable r = true.
Proof.
  destruct (findTabStop_candidates doc direction element) as [i ->].
  intros Hr. by apply orElse_index_In, filter_In in Hr.
Qed.

(** X4: whatever the direction and whatever element it is asked about,
    [findTabStop] only ever returns an element of the document that the
    selector matches and whose tab index is not negative; and it returns
    nothing exactly when the document has no such element. *)
Theorem findTabStop_lands_on_candidate (doc : Document) (direction : Z)
  (element : HTMLElement) :
  (forall r, findTabStop doc direction element = Some r ->
             In r (elements doc) /\ matchesFocusable r = true /\ tabIndex r >= 0)
  /\ (findTabStop doc direction element = None
      <-> forall el, In el (elements doc) -> focusable el = false).
Proof.
  split; [| apply findTabStop_none].
  intros r Hr. apply findTabStop_some in Hr as [Hin Hf].
  unfold focusable in Hf. apply andb_true_iff in Hf as [Hm Ht].
  split; [done |]. split; [done |].
  destruct (Z.geb_spec (tabIndex r) 0); [lia | done].
Qed.

Lemma NoDup_filter_nodes (f : HTMLElement -> bool) (l : list HTMLElement) :
  NoDup (List.map node l) -> NoDup (List.map node (List.filter f l)).
Proof.
  induction l as [|x l IH]; simpl; [done |].
  intros Hnd. apply NoDup_cons in Hnd as [Hfresh Hnd].
  destruct (f x); simpl; [| by apply IH].
  apply NoDup_cons. split; [| by apply IH].
  intros Hin. apply Hfresh.
  apply list_elem_of_In, in_map_iff in Hin as (y & Hy & Hin).
  apply filter_In in Hin as [Hin _].
  rewrite <- Hy. by apply list_elem_of_In, in_map.
Qed.

Lemma indexOfFrom_app (before after : list HTMLElement) (x : HTMLElement) (i : Z) :
  (forall y, In y before -> node y <> node x) ->
  indexOfFrom (before ++ x :: after) x i = i + Z.of_nat (length before).
Proof.
  revert i. induction before as [|y before IH]; intros i Hfresh; simpl.
  - rewrite Nat.eqb_refl. lia.
  - destruct (Nat.eqb_spec (node y) (node x)) as [Heq | _].
    + exfalso. apply (Hfresh y); [by left | done].
    + rewrite IH by (intros z Hz; apply Hfresh; by right). lia.
Qed.

Lemma indexOf_position (doc : Document) (before after : list HTMLElement)
  (x : HTMLElement) :
  NoDup (List.map node (elements doc)) ->
  List.filter focusable (elements doc) = before ++ x :: after ->
  indexOf (before ++ x :: after) x = Z.of_nat (length before).
Proof.
  intros Hnd Htab. unfold indexOf. rewrite indexOfFrom_app; [lia |].
  apply (NoDup_filter_nodes focusable) in Hnd. rewrite Htab in Hnd.
  rewrite map_app in Hnd. simpl in Hnd.
  apply NoDup_app in Hnd as (_ & Hdisj & _).
  intros y Hy Heq. apply (Hdisj (node y)).
  - by apply list_elem_of_In, in_map.
  - rewrite Heq. by left.
Qed.

(** X5: going backwards, [findTabStop] returns the focusable element
    just before the one given, and at the first focusable element it
    stays there: unlike the forward direction, it does not wrap round to
    the last one. *)
Theorem findTabStop_backwards (doc : Document) (direction : Z)
  (before after : list HTMLElement) (x : HTMLElement) :
  direction < 0 ->
  NoDup (List.map node (elements doc)) ->
  List.filter focusable (elements doc) = before ++ x :: after ->
  findTabStop doc direction x = Some (List.last before x).
Proof.
  intros Hdir Hnd Htab. unfold findTabStop.
  rewrite tabable_focusable, Htab. cbv zeta.
  rewrite (indexOf_position doc before after x Hnd Htab).
  destruct (Z.geb_spec direction 0) as [? | _]; [lia |].
  destruct before as [|b before] using rev_ind.
  - simpl. done.
  - clear IHbefore. rewrite length_app. simpl.
    replace (Z.of_nat (length before + 1) - 1) with (Z.of_nat (length before)) by lia.
    rewrite index_of_nat, List.last_last, <- app_assoc.
    rewrite lookup_app_r by lia. by rewrite Nat.sub_diag.
Qed.

Lemma findTabStop_backwards_witness :
  findTabStop Samples.editorFocused (-1) Samples.editorArea = Some Samples.firstButton
  /\ findTabStop Samples.editorFocused (-1) Samples.firstButton = Some Samples.firstButton.
Proof.
  split.
  - apply (findTabStop_backwards Samples.editorFocused (-1)
             [Samples.firstButton] [Samples.lastButton] Samples.editorArea);
      [lia | compute_done | reflexivity].
  - apply (findTabStop_backwards Samples.editorFocused (-1)
             [] [Samples.editorArea; Samples.lastButton] Samples.firstButton);
      [lia | compute_done | reflexivity].
Defined.

(** *** Key events *)

(** X6: the key handler of the cell's wrapper never does anything: the
    event it hands on carries no editor report, and both the escape and
    the submit handler do nothing without one. *)
Theorem wrapper_keydown_inert `{Identifiers} (this : t) (doc : Document)
  (event : IKeyboardEvent) :
  onKeyDown this doc event = (this, []).
Proof.
  unfold onKeyDown, onEditCellKeyDown, editCellEscape, editCellSubmit. simpl.
  by repeat case_match.
Qed.

Lemma editCellEscape_idle (this : t) (doc : Document) (e : IKeyboardEvent) :
  snd (editCellEscape this doc e) = []
  <-> activeElement doc = None \/ editorInfo e = None
      \/ (exists info, editorInfo e = Some info /\ isSuggesting info = true)
      \/ (forall el, In el (elements doc) -> focusable el = false).
Proof.
  unfold editCellEscape.
  destruct (activeElement doc) as [focused |]; [| by split; [left |]].
  destruct (editorInfo e) as [info |]; [| by split; [right; left |]].
  destruct (isSuggesting info) eqn:Hs; simpl.
  { split; [| done]. intros _. right. right. left. by exists info. }
  destruct (findTabStop doc 1 focused) as [next |] eqn:Hnext; simpl.
  - split; [done |]. intros [? | [? | [(i & [= <-] & Hi) | Hnone]]]; try congruence.
    apply (findTabStop_none doc 1 focused) in Hnone. congruence.
  - split; [| done]. intros _. right. right. right.
    by apply (findTabStop_none doc 1 focused).
Qed.

Lemma editCellSubmit_idle (this : t) (e : IKeyboardEvent) :
  snd (editCellSubmit this e) = []
  <-> editorInfo e = None
      \/ exists info, editorInfo e = Some info /\ contents info = "".
Proof.
  unfold editCellSubmit.
  destruct (editorInfo e) as [info |]; [| by split; [left |]].
  destruct (contents info) as [|c s] eqn:Hc; simpl.
  - split; [| done]. intros _. right. by exists info.
  - split; [done |]. intros [? | (i & [= <-] & Hi)]; congruence.
Qed.

(** X7: a key event from the editor makes no call exactly when it is
    neither Escape nor Shift+Enter, or it is an Escape with nothing
    focused, no editor report, a suggestion showing or no focusable
    element in the document, or it is a Shift+Enter with no editor report
    or empty contents; and then the instance is left as it was. *)
Theorem key_handler_idle_iff (this : t) (doc : Document) (cellId : string)
  (e : IKeyboardEvent) :
  (snd (onEditCellKeyDown this doc cellId e) = []
   <-> (code e <> "Escape" /\ ~ isSubmitCombination e)
       \/ (code e = "Escape"
           /\ (activeElement doc = None \/ editorInfo e = None
               \/ (exists info, editorInfo e = Some info /\ isSuggesting info = true)
               \/ (forall el, In el (elements doc) -> focusable el = false)))
       \/ (isSubmitCombination e
           /\ (editorInfo e = None
               \/ exists info, editorInfo e = Some info /\ contents info = "")))
  /\ (snd (onEditCellKeyDown this doc cellId e) = [] ->
      fst (onEditCellKeyDown this doc cellId e) = this).
Proof.
  unfold onEditCellKeyDown, isSubmitCombination.
  destruct (String.eqb_spec (code e) "Escape") as [Hesc | Hesc].
  - split.
    + rewrite editCellEscape_idle. split.
      * intros Hidle. right. left. by split.
      * intros [[? _] | [[_ Hidle] | [[Henter _] _]]]; [done | done | congruence].
    + intros _. unfold editCellEscape. by repeat case_match.
  - destruct (String.eqb_spec (code e) "Enter") as [Henter | Henter]; simpl.
    + destruct (shiftKey e) eqn:Hshift.
      * split.
        -- rewrite editCellSubmit_idle. split.
           ++ intros Hidle. right. right. by split.
           ++ intros [[_ Hno] | [[? _] | [_ Hidle]]]; [| done | done].
              exfalso. by apply Hno.
        -- unfold editCellSubmit. by repeat case_match.
      * split; [| done]. split; [| done]. intros _. left. split; [done |].
        intros [_ ?]. congruence.
    + split; [| done]. split; [| done]. intros _. left. split; [done |].
      by intros [? _].
Qed.

(** X8: the only element a key event from the editor ever gives focus
    to is a focusable element of the document, and only Escape does. *)
Theorem key_handler_focuses_candidates_only (this : t) (doc : Document)
  (cellId : string) (e : IKeyboardEvent) (n : nat) :
  In (ElementFocus n) (snd (onEditCellKeyDown this doc cellId e)) ->
  code e = "Escape"
  /\ exists el, In el (elements doc) /\ node el = n /\ focusable el = true.
Proof.
  unfold onEditCellKeyDown.
  destruct (String.eqb_spec (code e) "Escape") as [Hesc | Hesc].
  - intros Hin. split; [done |]. unfold editCellEscape in Hin.
    destruct (activeElement doc) as [focused |]; [| done].
    destruct (editorInfo e) as [info |]; [| done].
    destruct (negb (isSuggesting info)); [| done].
    destruct (findTabStop doc 1 focused) as [next |] eqn:Hnext; [| done].
    destruct Hin as [[= <-] | []].
    apply findTabStop_some in Hnext as [Hin Hf]. by exists next.
  - unfold editCellSubmit. intros Hin.
    repeat case_match; simpl in Hin;
      repeat (destruct Hin as [Hin | Hin]; [discriminate |]); done.
Qed.

Lemma key_handler_focuses_candidates_only_witness :
  code Samples.escape = "Escape"
  /\ exists el, In el (elements Samples.editorFocused)
                /\ node el = 3%nat /\ focusable el = true.
Proof.
  apply (key_handler_focuses_candidates_only Samples.editCellInstance
           Samples.editorFocused "edit-cell" Samples.escape 3).
  left. reflexivity.
Defined.

(** *** What is rendered *)

Lemma shouldRenderResults_true (this : t) :
  shouldRenderResults this = true
  <-> CellData.cell_type (ICell.data (getCell this)) = "code"
      /\ (ICell.state (getCell this) = finished \/ ICell.state (getCell this) = error
          \/ ICell.state (getCell this) = executing)
      /\ (exists o os, CellData.outputs (ICell.data (getCell this)) = Some (o :: os))
      /\ ICellViewModel.hideOutput (cellVM (props this)) = false.
Proof.
  unfold shouldRenderResults, hasOutput, isCodeCell.
  rewrite !andb_true_iff, !orb_true_iff, !bool_decide_eq_true, String.eqb_eq,
    negb_true_iff.
  assert ((match CellData.outputs (ICell.data (getCell this)) with
           | Some outputs => Z.of_nat (length outputs) >? 0
           | None => false
           end = true)
          <-> exists o os, CellData.outputs (ICell.data (getCell this)) = Some (o :: os))
    as ->.
  { destruct (CellData.outputs (ICell.data (getCell this))) as [[|o os] |]; simpl.
    - split; [done | by intros (? & ? & ?)].
    - split; [by eauto | done].
    - split; [done | by intros (? & ? & ?)]. }
  tauto.
Qed.

(** X9: a cell that is no banner is left out of the page exactly when
    its input may not be shown (the setting is off and the cell is neither
    a direct input nor editable) and it has no results to show; it has
    results to show exactly when it is a code cell that is executing, has
    finished or has failed, has at least one output and does not hide its
    output.  A banner cell is never left out. *)
Theorem render_nothing_iff `{Identifiers} (this : t) :
  (render this = NormalCell None
   <-> CellData.cell_type (ICell.data (getCell this)) <> "messages"
       /\ showCellInputCode (settings (props this)) = false
       /\ ICellViewModel.directInput (cellVM (props this)) = false
       /\ ICellViewModel.editable (cellVM (props this)) = false
       /\ shouldRenderResults this = false)
  /\ (shouldRenderResults this = true
      <-> CellData.cell_type (ICell.data (getCell this)) = "code"
          /\ (ICell.state (getCell this) = finished \/ ICell.state (getCell this) = error
              \/ ICell.state (getCell this) = executing)
          /\ (exists o os, CellData.outputs (ICell.data (getCell this)) = Some (o :: os))
          /\ ICellViewModel.hideOutput (cellVM (props this)) = false)
  /\ (CellData.cell_type (ICell.data (getCell this)) = "messages" ->
      render this = InformationMessages (CellData.messages (ICell.data (getCell this)))).
Proof.
  split; [| split; [apply shouldRenderResults_true |]].
  - unfold render, renderNormalCell.
    destruct (String.eqb_spec (CellData.cell_type (ICell.data (getCell this))) "messages")
      as [Hm | Hm].
    { split; [done | by intros [? _]]. }
    destruct (showCellInputCode (settings (props this))),
      (ICellViewModel.directInput (cellVM (props this))),
      (ICellViewModel.editable (cellVM (props this))),
      (shouldRenderResults this); simpl; split; try done; intros (_ & ? & ? & ? & ?);
      congruence.
  - intros Hm. unfold render. by rewrite Hm.
Qed.

(** X10: a toolbar is missing exactly for banner cells, for cells that
    are left out of the page and for the edit cell; every toolbar that is
    rendered has the same four buttons in the same order, each dispatching
    its action for this cell's identity; the gather button is hidden
    exactly when gathering is disabled and the remove button is never
    hidden. *)
Theorem toolbar_for_ordinary_cells `{Identifiers} (this : t) :
  let id := ICell.id (getCell this) in
  (toolbarOf (render this) = None
   <-> CellData.cell_type (ICell.data (getCell this)) = "messages"
       \/ render this = NormalCell None
       \/ id = EditCellId)
  /\ (forall tb,
        toolbarOf (render this) = Some tb ->
        List.map (fun b => (image b, onClick b)) tb
        = [(GatherCode, gatherCell id); (GoToSourceCode, gotoCell id);
           (Copy, copyCellCode id); (Cancel, deleteCell id)]
        /\ (forall b, buttonOf GatherCode tb = Some b ->
                      hidden b = negb (enableGather (settings (props this))))
        /\ (forall b, buttonOf Cancel tb = Some b -> hidden b = false)).
Proof.
  intros id. subst id. split.
  - unfold render, toolbarOf, renderNormalCell, renderControls. unfold getCell.
    destruct (String.eqb_spec
                (CellData.cell_type (ICell.data (ICellViewModel.cell (cellVM (props this)))))
                "messages") as [Hm | Hm].
    { split; [by left | done]. }
    destruct (_ || shouldRenderResults this); simpl.
    + destruct (String.eqb_spec (ICell.id (ICellViewModel.cell (cellVM (props this))))
                  EditCellId) as [Hid | Hid].
      * split; [by right; right | done].
      * split; [done |]. intros [? | [? | ?]]; congruence.
    + split; [by right; left | done].
  - intros tb Htb. apply toolbarOf_render in Htb as ->.
    unfold renderNormalToolbar, buttonOf. simpl.
    split; [done |]. split; intros b [= <-]; done.
Qed.

(** *** Focus *)

(** X11: an update of the props gives focus only when it is not skipped
    and the cell turns from unselected to selected, and then it does; the
    inner editor is focused, at the current cursor position, only if in
    addition the new props mark the cell focused, the cell is a code cell
    and the editor is mounted. *)
Theorem update_focus_on_selection
  (fastDeepEqual : IInteractiveCellBaseProps -> IInteractiveCellBaseProps -> bool)
  (this : t) (nextProps : IInteractiveCellBaseProps) :
  let calls := snd (receiveProps fastDeepEqual this nextProps) in
  let turnsSelected :=
    ICellViewModel.selected (cellVM nextProps) = true
    /\ ICellViewModel.selected (cellVM (props this)) = false in
  ((exists n, In (ElementFocus n) calls) \/ (exists pos, In (CodeGiveFocus pos) calls) ->
     fastDeepEqual (props this) nextProps = false /\ turnsSelected)
  /\ (forall pos, In (CodeGiveFocus pos) calls ->
        pos = Current
        /\ ICellViewModel.focused (cellVM nextProps) = true
        /\ CellData.cell_type (ICell.data (ICellViewModel.cell (cellVM nextProps))) = "code"
        /\ codeRef this = true)
  /\ (fastDeepEqual (props this) nextProps = false -> turnsSelected ->
      calls = Render :: giveFocus (with_props this nextProps)
                          (ICellViewModel.focused (cellVM nextProps))).
Proof.
  intros calls turnsSelected. subst calls turnsSelected.
  unfold receiveProps, shouldComponentUpdate, componentDidUpdate.
  destruct (fastDeepEqual (props this) nextProps); simpl.
  { split; [by intros [[? []] | [? []]] |]. split; [by intros ? [] | done]. }
  destruct (ICellViewModel.selected (cellVM nextProps)); simpl.
  2: { split; [intros [[? [? | []]] | [? [? | []]]]; discriminate |].
       split; [intros ? [? | []]; discriminate | by intros _ [? _]]. }
  destruct (ICellViewModel.selected (cellVM (props this))); simpl.
  { split; [intros [[? [? | []]] | [? [? | []]]]; discriminate |].
    split; [intros ? [? | []]; discriminate | by intros _ [_ ?]]. }
  split; [done |]. split; [| done].
  intros pos [? | Hin]; [discriminate |].
  unfold giveFocus, isCodeCell, getCell in Hin. simpl in Hin.
  apply in_app_or in Hin as [Hin | Hin].
  { destruct (wrapperRef this); [destruct Hin as [? | []]; discriminate | done]. }
  destruct (ICellViewModel.focused (cellVM nextProps)); simpl in Hin; [| done].
  destruct (String.eqb_spec
              (CellData.cell_type (ICell.data (ICellViewModel.cell (cellVM nextProps))))
              "code") as [Hcode | _]; simpl in Hin; [| done].
  destruct (codeRef this); simpl in Hin; [| done].
  destruct Hin as [[= <-] | []]. done.
Qed.

Lemma update_focus_on_selection_witness :
  snd (receiveProps Samples.structuralEqual MoreSamples.mountedFileCell
         MoreSamples.selectedProps)
  = [Render; ElementFocus 7; CodeGiveFocus Current].
Proof.
  rewrite (proj2 (proj2 (update_focus_on_selection Samples.structuralEqual
                           MoreSamples.mountedFileCell MoreSamples.selectedProps))).
  - reflexivity.
  - vm_compute. reflexivity.
  - split; reflexivity.
Defined.

(** *** The flash *)

(** X12: on a cell whose wrapper is not mounted [scrollAndFlash] changes
    nothing and arms no timer; on a mounted cell it scrolls the wrapper
    into view, adds the class ["flash"] and no other, and arms one timer
    of 1000 ms; when the timer fires on a cell that is still mounted the
    class list is back to what it was (if ["flash"] was not in it before),
    and on a cell unmounted in the meantime the timer changes nothing. *)
Theorem flash_round_trip (this later : t) (classList : gset string) :
  (wrapperRef this = None ->
     CellFlash.scrollAndFlash this classList = (classList, []))
  /\ (is_Some (wrapperRef this) ->
        snd (CellFlash.scrollAndFlash this classList)
        = [CellFlash.ScrollIntoView; CellFlash.RemoveFlashAfter 1000]
        /\ "flash" ∈ fst (CellFlash.scrollAndFlash this classList)
        /\ (forall c, c <> "flash" ->
              (c ∈ fst (CellFlash.scrollAndFlash this classList) <-> c ∈ classList)))
  /\ (is_Some (wrapperRef this) -> is_Some (wrapperRef later) -> "flash" ∉ classList ->
        CellFlash.flashTimerFired later (fst (CellFlash.scrollAndFlash this classList))
        = classList)
  /\ (wrapperRef later = None ->
        CellFlash.flashTimerFired later (fst (CellFlash.scrollAndFlash this classList))
        = fst (CellFlash.scrollAndFlash this classList)).
Proof.
  unfold CellFlash.scrollAndFlash, CellFlash.flashTimerFired.
  split; [by intros -> |]. split; [| split].
  - intros [n ->]. simpl. split; [done |]. split; [set_solver |].
    intros c Hc. set_solver.
  - intros [n ->] [m ->] Hfresh. simpl. set_solver.
  - by intros ->.
Qed.

Lemma flash_round_trip_witness :
  CellFlash.flashTimerFired MoreSamples.mountedFileCell
    (fst (CellFlash.scrollAndFlash MoreSamples.mountedFileCell {["cell-wrapper"]}))
  = {["cell-wrapper"]}.
Proof.
  apply (proj1 (proj2 (proj2 (flash_round_trip MoreSamples.mountedFileCell
                                MoreSamples.mountedFileCell {["cell-wrapper"]})))).
  - by eexists.
  - by eexists.
  - set_solver.
Defined.

End InteractiveCellMore.


(** ** Further facts about the notebook surface *)
Module NativeEditorMore.
Import NativeEditor NativeEditorSpec NativeEditorLife NativeEditorFacts.
Local Open Scope list_scope.
Local Arguments String.eqb : simpl never.

(** *** The ref maps over the editor's life *)

Lemma applyEvent_registered (this : t) (ev : EditorEvent) :
  dom (cellRefs this) ⊆ dom (cellRefs (fst (applyEvent this ev)))
  /\ dom (cellContainerRefs this) ⊆ dom (cellContainerRefs (fst (applyEvent this ev))).
Proof.
  destruct ev; simpl.
  - rewrite !dom_insert_L. split; apply union_subseteq_r.
  - by rewrite !dom_alter_L.
  - done.
Qed.

Lemma applyEvent_paired (this : t) (ev : EditorEvent) :
  refsPaired this -> refsPaired (fst (applyEvent this ev)).
Proof.
  unfold refsPaired. intros Hpair. destruct ev; simpl.
  - by rewrite !dom_insert_L, Hpair.
  - by rewrite !dom_alter_L.
  - done.
Qed.

Lemma applyEvents_cons (this : t) (ev : EditorEvent) (evs : list EditorEvent) :
  applyEvents this (ev :: evs)
  = (fst (applyEvents (fst (applyEvent this ev)) evs),
     snd (applyEvent this ev) ++ snd (applyEvents (fst (applyEvent this ev)) evs)).
Proof.
  cbn [applyEvents]. destruct (applyEvent this ev) as [this' calls].
  cbn [fst snd]. by destruct (applyEvents this' evs).
Qed.

Lemma applyEvents_registered (evs : list EditorEvent) (this : t) :
  dom (cellRefs this) ⊆ dom (cellRefs (fst (applyEvents this evs)))
  /\ dom (cellContainerRefs this) ⊆ dom (cellContainerRefs (fst (applyEvents this evs))).
Proof.
  revert this. induction evs as [|ev evs IH]; intros this; [done |].
  rewrite applyEvents_cons. simpl.
  destruct (applyEvent_registered this ev) as [Hc Hk].
  destruct (IH (fst (applyEvent this ev))) as [Hc' Hk'].
  split; etrans; done.
Qed.

(** X13: the editor never forgets a ref: over any run of renders, ref
    attachments and view changes, an identity that has a cell ref or a
    container ref keeps having one, also when its cell has left the cell
    list; and cell refs and container refs stay registered in pairs. *)
Theorem refs_never_forgotten (this : t) (evs : list EditorEvent) :
  registered this ⊆ registered (fst (applyEvents this evs))
  /\ dom (cellContainerRefs this) ⊆ dom (cellContainerRefs (fst (applyEvents this evs)))
  /\ (refsPaired this -> refsPaired (fst (applyEvents this evs))).
Proof.
  destruct (applyEvents_registered evs this) as [Hc Hk].
  split; [exact Hc |]. split; [exact Hk |].
  revert this Hc Hk. induction evs as [|ev evs IH]; intros this _ _ Hpair; [done |].
  rewrite applyEvents_cons. simpl.
  destruct (applyEvents_registered evs (fst (applyEvent this ev))) as [Hc Hk].
  apply IH; [done | done |]. by apply applyEvent_paired.
Qed.

(** X14: rendering a cell registers two fresh, detached refs under its
    identity, replacing any that were attached: until they are attached
    again the visibility scan has no container to measure for it, and a
    state update of the scan leaves every cell of that identity as it is;
    the refs of every other identity and the other fields are left as
    they were. *)
Theorem rerender_detaches (this : t) (cellVM : ICellViewModel.t) (other : string) :
  let id := ICell.id (ICellViewModel.cell cellVM) in
  let rendered := fst (renderCell this cellVM) in
  cellRefs rendered !! id = Some None
  /\ cellContainerRefs rendered !! id = Some None
  /\ measured rendered cellVM = None
  /\ (forall cellVMs' i vm,
        updateVisibleCells rendered = [SetState cellVMs'] ->
        cellVMs rendered !! i = Some vm ->
        ICell.id (ICellViewModel.cell vm) = id ->
        cellVMs' !! i = Some vm)
  /\ (other <> id ->
      cellRefs rendered !! other = cellRefs this !! other
      /\ cellContainerRefs rendered !! other = cellContainerRefs this !! other)
  /\ cellVMs rendered = cellVMs this
  /\ contentPanelScrollRef rendered = contentPanelScrollRef this.
Proof.
  intros id rendered.
  assert (forall vm, ICell.id (ICellViewModel.cell vm) = id -> measured rendered vm = None)
    as Hdetached.
  { intros vm Hid. subst id rendered. unfold measured. simpl.
    rewrite Hid, !lookup_insert_eq. by destruct (_ && _). }
  split; [subst id rendered; simpl; by rewrite lookup_insert_eq |].
  split; [subst id rendered; simpl; by rewrite lookup_insert_eq |].
  split; [by apply Hdetached |].
  split; [| split; [| done]].
  - intros cellVMs' i vm Hupd Hi Hid.
    destruct (contentPanelScrollRef rendered) as [panel |] eqn:Hpanel;
      [| by rewrite updateVisibleCells_idle in Hupd by (by left)].
    destruct (decide (size (cellContainerRefs rendered) = 0%nat)) as [Hsize | Hsize];
      [by rewrite updateVisibleCells_idle in Hupd by (by right) |].
    rewrite (updateVisibleCells_scan _ _ Hpanel Hsize) in Hupd.
    destruct (snd (scanList rendered _ _ (cellVMs rendered))); [| done].
    injection Hupd as <-.
    rewrite (scanList_lookup _ _ _ _ _ _ Hi). unfold promotes.
    by rewrite (Hdetached vm Hid), andb_false_r.
  - intros Hne. subst id rendered. simpl. by rewrite !lookup_insert_ne.
Qed.

(** *** The initial visibility settle *)

Lemma applyEvent_loadTotal (this : t) (ev : EditorEvent) :
  loadTotal (fst (applyEvent this ev))
  = match ev with ViewChanged _ total _ _ => total | _ => loadTotal this end.
Proof. by destruct ev. Qed.

Lemma applyEvent_settle (this : t) (ev : EditorEvent) :
  (snd (applyEvent this ev) = []
   /\ initialVisibilityUpdate (fst (applyEvent this ev)) = initialVisibilityUpdate this)
  \/ (snd (applyEvent this ev) = [DebounceUpdateVisibleCells]
      /\ initialVisibilityUpdate this = false
      /\ initialVisibilityUpdate (fst (applyEvent this ev)) = true
      /\ exists total, loadTotal this = Some total /\ total <> 0
                       /\ total <= Z.of_nat (size (cellRefs (fst (applyEvent this ev))))).
Proof.
  destruct ev; simpl; [| by left ..].
  destruct (loadTotal this) as [total |]; [| left; by rewrite orb_false_r].
  destruct (Z.eqb_spec total 0) as [-> | Hne]; simpl; [left; by rewrite orb_false_r |].
  destruct (Z.geb_spec (Z.of_nat (size (<[ICell.id (ICellViewModel.cell cellVM) := None]>
                                         (cellRefs this)))) total) as [Hge | Hlt]; simpl;
    [| left; by rewrite orb_false_r].
  destruct (initialVisibilityUpdate this); simpl; [by left |].
  right. split; [done |]. split; [done |]. split; [done |].
  exists total. split; [done |]. split; [done | lia].
Qed.

Lemma applyEvents_settle (evs : list EditorEvent) (this : t) :
  (initialVisibilityUpdate this = true ->
     snd (applyEvents this evs) = []
     /\ initialVisibilityUpdate (fst (applyEvents this evs)) = true)
  /\ (snd (applyEvents this evs) = []
      \/ (snd (applyEvents this evs) = [DebounceUpdateVisibleCells]
          /\ initialVisibilityUpdate this = false
          /\ initialVisibilityUpdate (fst (applyEvents this evs)) = true)).
Proof.
  revert this. induction evs as [|ev evs IH]; intros this.
  { simpl. split; [done | by left]. }
  rewrite applyEvents_cons. simpl.
  destruct (IH (fst (applyEvent this ev))) as (Hset & Hone).
  destruct (applyEvent_settle this ev)
    as [[-> Hflag] | (-> & Hfalse & Htrue & _)]; simpl.
  - rewrite Hflag in Hset, Hone. done.
  - destruct (Hset Htrue) as [-> Hfinal]. simpl.
    split; [congruence |]. right. done.
Qed.

Lemma applyEvents_falsy (evs : list EditorEvent) (this : t) :
  falsyTotal (loadTotal this) -> Forall (keepsLoadTotal falsyTotal) evs ->
  snd (applyEvents this evs) = [].
Proof.
  revert this. induction evs as [|ev evs IH]; intros this Hfalsy Hevs; [done |].
  apply Forall_cons in Hevs as [Hev Hevs].
  rewrite applyEvents_cons. simpl.
  assert (snd (applyEvent this ev) = []) as ->.
  { destruct (applyEvent_settle this ev) as [[? _] | (_ & _ & _ & total & Ht & Hne & _)];
      [done |].
    destruct Hfalsy as [? | ?]; congruence. }
  simpl. apply IH; [| done].
  rewrite applyEvent_loadTotal. by destruct ev.
Qed.

(** X15: over any run of renders, ref attachments and prop changes, the
    latter free to change [loadTotal], [renderCell] asks for the
    visibility scan at most once, and makes no other call; it never asks
    when the scan was already asked for; it never asks in a run that
    starts with [loadTotal] missing or zero and whose prop changes all
    bring a [loadTotal] that is missing or zero; and once it has asked,
    the editor remembers it. *)
Theorem settle_requested_at_most_once (this : t) (evs : list EditorEvent) :
  let result := applyEvents this evs in
  (snd result = [] \/ snd result = [DebounceUpdateVisibleCells])
  /\ (occurrences DebounceUpdateVisibleCells (snd result) <= 1)%nat
  /\ (initialVisibilityUpdate this = true -> snd result = [])
  /\ (falsyTotal (loadTotal this) -> Forall (keepsLoadTotal falsyTotal) evs ->
      snd result = [])
  /\ (snd result <> [] -> initialVisibilityUpdate (fst result) = true).
Proof.
  intros result. subst result.
  destruct (applyEvents_settle evs this) as (Hset & Hone).
  split; [destruct Hone as [? | (? & _)]; [by left | by right] |].
  split; [destruct Hone as [-> | (-> & _)]; unfold occurrences; simpl; lia |].
  split; [intros Hflag; by apply Hset |].
  split; [apply applyEvents_falsy |].
  intros Hcalls. by destruct Hone as [? | (_ & _ & ?)].
Qed.

(** A prop change to a positive [loadTotal] after the cells were rendered
    does not by itself ask for the scan; the next render does. *)
Example settle_after_total_arrives :
  snd (applyEvents (initial [Samples.c1; Samples.c2] None)
         [CellRendered Samples.c1; CellRendered Samples.c2;
          ViewChanged [Samples.c1; Samples.c2] (Some 2) None None])
  = []
  /\ snd (applyEvents (initial [Samples.c1; Samples.c2] None)
            [CellRendered Samples.c1; CellRendered Samples.c2;
             ViewChanged [Samples.c1; Samples.c2] (Some 2) None None;
             CellRendered Samples.c1])
     = [DebounceUpdateVisibleCells].
Proof. split; vm_compute; reflexivity. Qed.

Lemma applyEvents_size (evs : list EditorEvent) (this : t) :
  (size (cellRefs this) <= size (cellRefs (fst (applyEvents this evs))))%nat.
Proof.
  destruct (applyEvents_registered evs this) as [Hc _].
  apply subseteq_size in Hc. by rewrite !size_dom in Hc.
Qed.

Lemma applyEvent_count (this : t) (ev : EditorEvent) (n : Z) :
  loadTotal this = Some n -> 0 < n -> initialVisibilityUpdate this = false ->
  Z.of_nat (size (cellRefs this)) < n ->
  (snd (applyEvent this ev) = []
   /\ initialVisibilityUpdate (fst (applyEvent this ev)) = false
   /\ Z.of_nat (size (cellRefs (fst (applyEvent this ev)))) < n)
  \/ (snd (applyEvent this ev) = [DebounceUpdateVisibleCells]
      /\ initialVisibilityUpdate (fst (applyEvent this ev)) = true
      /\ n <= Z.of_nat (size (cellRefs (fst (applyEvent this ev))))).
Proof.
  intros Htotal Hpos Hflag Hsize. destruct ev; simpl.
  - rewrite Htotal, Hflag. simpl.
    destruct (Z.eqb_spec n 0) as [? | _]; [lia |]. simpl.
    destruct (Z.geb_spec (Z.of_nat (size (<[ICell.id (ICellViewModel.cell cellVM) := None]>
                                           (cellRefs this)))) n) as [Hge | Hlt]; simpl.
    + right. split; [done |]. split; [done | lia].
    + left. done.
  - left. split; [done |]. split; [done |].
    by rewrite <- size_dom, dom_alter_L, size_dom.
  - left. done.
Qed.

Lemma applyEvents_count (evs : list EditorEvent) (this : t) (n : Z) :
  loadTotal this = Some n -> 0 < n -> initialVisibilityUpdate this = false ->
  Z.of_nat (size (cellRefs this)) < n ->
  Forall (keepsLoadTotal (fun total => total = Some n)) evs ->
  snd (applyEvents this evs)
  = if decide (n <= Z.of_nat (size (cellRefs (fst (applyEvents this evs)))))
    then [DebounceUpdateVisibleCells] else [].
Proof.
  revert this. induction evs as [|ev evs IH]; intros this Htotal Hpos Hflag Hsize Hevs.
  { simpl. by rewrite decide_False by lia. }
  apply Forall_cons in Hevs as [Hev Hevs].
  rewrite applyEvents_cons. simpl.
  assert (loadTotal (fst (applyEvent this ev)) = Some n) as Htotal'.
  { rewrite applyEvent_loadTotal. by destruct ev. }
  destruct (applyEvent_count this ev n Htotal Hpos Hflag Hsize)
    as [(-> & Hflag' & Hsize') | (-> & Hflag' & Hsize')]; simpl.
  - by apply IH.
  - destruct (applyEvents_settle evs (fst (applyEvent this ev))) as (Hset & _).
    destruct (Hset Hflag') as [-> _].
    pose proof (applyEvents_size evs (fst (applyEvent this ev))).
    by rewrite decide_True by lia.
Qed.

(** X16: in an editor constructed to load [n > 0] cells, over any run of
    renders, ref attachments and prop changes in which every prop change
    keeps [loadTotal] at [n], the visibility scan has been asked for
    (once) exactly when at least [n] identities have a cell ref. *)
Theorem settle_when_all_rendered (vms : list ICellViewModel.t) (n : Z)
  (evs : list EditorEvent) :
  0 < n ->
  Forall (keepsLoadTotal (fun total => total = Some n)) evs ->
  let result := applyEvents (initial vms (Some n)) evs in
  snd result
  = if decide (n <= Z.of_nat (size (cellRefs (fst result))))
    then [DebounceUpdateVisibleCells] else [].
Proof.
  intros Hpos Hevs result. subst result.
  apply applyEvents_count; [done | done | done | | done].
  simpl. rewrite map_size_empty. lia.
Qed.

Lemma settle_when_all_rendered_witness :
  snd (applyEvents (initial [Samples.c1; Samples.c2] (Some 2))
         [CellRendered Samples.c1;
          ViewChanged [Samples.c1; Samples.c2] (Some 2) None None;
          CellRendered Samples.c1])
  = []
  /\ snd (applyEvents (initial [Samples.c1; Samples.c2] (Some 2))
            [CellRendered Samples.c1;
             ViewChanged [Samples.c1; Samples.c2] (Some 2) None None;
             CellRendered Samples.c2; CellRendered Samples.c1])
     = [DebounceUpdateVisibleCells].
Proof.
  split.
  - rewrite (settle_when_all_rendered [Samples.c1; Samples.c2] 2
               [CellRendered Samples.c1;
                ViewChanged [Samples.c1; Samples.c2] (Some 2) None None;
                CellRendered Samples.c1]);
      [vm_compute; reflexivity | lia | repeat constructor].
  - rewrite (settle_when_all_rendered [Samples.c1; Samples.c2] 2
               [CellRendered Samples.c1;
                ViewChanged [Samples.c1; Samples.c2] (Some 2) None None;
                CellRendered Samples.c2; CellRendered Samples.c1]);
      [vm_compute; reflexivity | lia | repeat constructor].
Defined.

(** Without that proviso the count does not decide: the props may bring a
    larger [loadTotal] before the cells are rendered. *)
Example settle_follows_current_total :
  snd (applyEvents (initial [Samples.c1; Samples.c2] (Some 1))
         [ViewChanged [Samples.c1; Samples.c2] (Some 3) None None;
          CellRendered Samples.c1; CellRendered Samples.c2])
  = [].
Proof. vm_compute. reflexivity. Qed.

(** *** The scan, once more *)

Lemma promoted_not_measured (this : t) (vt vb : Z) (c : ICellViewModel.t) :
  stopsAt this vb (ICellViewModel.with_useQuickEdit c false) = false
  /\ promotes this vt vb (ICellViewModel.with_useQuickEdit c false) = false.
Proof. done. Qed.

(** Scanning what a scan left changes nothing more. *)
Lemma scanList_idem (this : t) (vt vb : Z) (l : list ICellViewModel.t) :
  scanList this vt vb (fst (scanList this vt vb l)) = (fst (scanList this vt vb l), false).
Proof.
  induction l as [|c l IH]; [done |]. cbn [scanList].
  destruct (stopsAt this vb c) eqn:Hstop.
  { cbn [fst scanList]. by rewrite Hstop. }
  destruct (scanList this vt vb l) as [rest changed]. cbn [fst] in IH.
  destruct (promotes this vt vb c) eqn:Hprom; cbn [fst scanList].
  - destruct (promoted_not_measured this vt vb c) as [-> ->]. by rewrite IH.
  - by rewrite Hstop, Hprom, IH.
Qed.

Lemma scanList_withView (this : t) (vms : list ICellViewModel.t) (total : option Z)
  (newCell : option string) (panel : RefObject ScrollPanel.t) (vt vb : Z)
  (l : list ICellViewModel.t) :
  scanList (withView this vms total newCell panel) vt vb l = scanList this vt vb l.
Proof. induction l as [|c l IH]; simpl; [done |]. by rewrite IH. Qed.

(** X17: the scan settles in one step: if the list it puts into its
    state update became the editor's cell list, with the refs and the
    scroll position as they are, a second scan would issue no update,
    whatever the other props have become. *)
Theorem scan_settles (this : t) (cellVMs' : list ICellViewModel.t) :
  updateVisibleCells this = [SetState cellVMs'] ->
  forall total newCell,
    updateVisibleCells (withView this cellVMs' total newCell (contentPanelScrollRef this))
    = [].
Proof.
  intros Hupd total newCell.
  destruct (contentPanelScrollRef this) as [panel |] eqn:Hpanel;
    [| by rewrite updateVisibleCells_idle in Hupd by (by left)].
  destruct (decide (size (cellContainerRefs this) = 0%nat)) as [Hsize | Hsize];
    [by rewrite updateVisibleCells_idle in Hupd by (by right) |].
  rewrite (updateVisibleCells_scan _ _ Hpanel Hsize) in Hupd.
  destruct (snd (scanList this _ _ (cellVMs this))); [| done].
  injection Hupd as <-.
  rewrite (updateVisibleCells_scan _ panel) by done. simpl.
  by rewrite scanList_withView, scanList_idem.
Qed.

Lemma scan_settles_witness :
  updateVisibleCells
    (withView Samples.scrolledEditor
       [Samples.c1; ICellViewModel.with_useQuickEdit Samples.c2 false]
       (loadTotal Samples.scrolledEditor) (newCellId Samples.scrolledEditor)
       (contentPanelScrollRef Samples.scrolledEditor))
  = [].
Proof.
  apply (scan_settles Samples.scrolledEditor). vm_compute. reflexivity.
Defined.

(** X18: the scan issues no update when the scroll panel is not
    mounted, when no container ref is registered, or when every cell of
    the list (if any) is out of quick-edit mode, has no cell ref, or has a
    container ref that is missing or detached. *)
Theorem scan_idle (this : t) :
  contentPanelScrollRef this = None
  \/ cellContainerRefs this = ∅
  \/ (forall c, In c (cellVMs this) ->
        ICellViewModel.useQuickEdit c = false
        \/ cellRefs this !! ICell.id (ICellViewModel.cell c) = None
        \/ containerOf this c = None) ->
  updateVisibleCells this = [].
Proof.
  intros [Hpanel | [Hempty | Hnone]].
  - apply updateVisibleCells_idle. by left.
  - apply updateVisibleCells_idle. right. rewrite Hempty. apply map_size_empty.
  - destruct (contentPanelScrollRef this) as [panel |] eqn:Hpanel;
      [| apply updateVisibleCells_idle; by left].
    destruct (decide (size (cellContainerRefs this) = 0%nat)) as [Hsize | Hsize];
      [apply updateVisibleCells_idle; by right |].
    rewrite (updateVisibleCells_scan _ _ Hpanel Hsize).
    destruct (snd (scanList this _ _ (cellVMs this))) eqn:Hchanged; [| done].
    apply scanList_changed in Hchanged as (i & c & Hi & _ & Hprom).
    exfalso. unfold promotes in Hprom.
    destruct (measured this c) as [el |] eqn:Hm; [| done].
    pose proof (measured_container _ _ _ Hm) as [Hquick Hcont].
    unfold measured in Hm. rewrite Hquick in Hm. simpl in Hm.
    case_bool_decide as Hcell; [| done].
    destruct (Hnone c) as [? | [Hc | ?]]; [| congruence | | congruence].
    + apply list_elem_of_In, list_elem_of_lookup. by exists i.
    + rewrite Hc in Hcell. by destruct Hcell.
Qed.

Lemma scan_idle_witness : updateVisibleCells MoreSamples.bannerEditor = [].
Proof.
  apply scan_idle. right. right. intros c _. right. left. apply lookup_empty.
Defined.

(** *** Selection, once more *)

(** X19: an identity that only banner cells carry counts as not
    rendered: [selectCell] makes no selection at once and only arms its
    timer. *)
Theorem selectCell_skips_banners (this : t) (id : string) (focusCode : bool)
  (cursorPos : CursorPos) :
  (forall vm, In vm (cellVMs this) ->
              ICell.id (ICellViewModel.cell vm) = id ->
              CellData.cell_type (ICell.data (ICellViewModel.cell vm)) = "messages") ->
  selectCell this id focusCode cursorPos
  = Returned [SetTimeout (MoveSelectionToExisting id focusCode cursorPos) 1].
Proof.
  intros Hbanner. unfold selectCell.
  destruct (List.find _ (renderedCells this)) as [c |] eqn:Hfind; [| done].
  exfalso. apply List.find_some in Hfind as [Hin Hid].
  apply String.eqb_eq in Hid.
  unfold renderedCells in Hin. apply filter_In in Hin as [Hin Hkind].
  apply in_map_iff in Hin as (vm & <- & Hvm).
  rewrite (Hbanner vm Hvm Hid) in Hkind. done.
Qed.

Lemma selectCell_skips_banners_witness :
  selectCell MoreSamples.bannerEditor "m1" false Current
  = Returned [SetTimeout (MoveSelectionToExisting "m1" false Current) 1].
Proof.
  apply selectCell_skips_banners.
  intros vm [<- | [<- | []]] Hid; [reflexivity | discriminate].
Defined.

End NativeEditorMore.
